(** * Slash-command dispatch and deep-link resolution

    A shallow embedding of [app/actions/remote/command.ts]:
    [executeCommand], [executeAppCommand], [filterEmDashForCommand] and
    [handleGotoLocation].

    - JavaScript strings are sequences of UTF-16 code units ([list N]).
    - The collaborators the module imports (database registry, network
      client, app parser, deep-link matcher, navigation) are the fields of
      an environment record; every call to one of them is logged in a
      trace of events, so that "is never invoked" and "exactly once" are
      statements about that trace.
    - An async function is a computation in a small writer monad with an
      early [return]. *)

From Stdlib Require Import NArith ZArith List Ascii String Bool Lia.
From stdpp Require Import base option list gmap.

Local Open Scope N_scope.

(** ** JavaScript strings *)

Module Js.

(** Literals: a Rocq string of ASCII characters, as code units. *)
Definition js (s : string) : list N :=
  List.map N_of_ascii (list_ascii_of_string s).

Definition SPACE : N := 32.
Definition EM_DASH : N := 0x2014.

(** [WhiteSpace] and [LineTerminator] of ECMA-262, the code units that
    [trim], [trimStart] and [trimEnd] remove. *)
Definition isWhiteSpace (c : N) : bool :=
  (c =? 0x09) || (c =? 0x0A) || (c =? 0x0B) || (c =? 0x0C) || (c =? 0x0D)
  || (c =? 0x20) || (c =? 0xA0) || (c =? 0x1680)
  || ((0x2000 <=? c) && (c <=? 0x200A))
  || (c =? 0x2028) || (c =? 0x2029) || (c =? 0x202F) || (c =? 0x205F)
  || (c =? 0x3000) || (c =? 0xFEFF).

Fixpoint trimStart (s : list N) : list N :=
  match s with
  | [] => []
  | c :: s' => if isWhiteSpace c then trimStart s' else s
  end.

Fixpoint trimEnd (s : list N) : list N :=
  match s with
  | [] => []
  | c :: s' =>
      match trimEnd s' with
      | [] => if isWhiteSpace c then [] else [c]
      | t => c :: t
      end
  end.

Definition trim (s : list N) : list N := trimEnd (trimStart s).

(** [s.indexOf(c)] for a one-unit search string: the first position of
    [c], or [-1]. *)
Fixpoint indexOf (c : N) (s : list N) : Z :=
  match s with
  | [] => (-1)%Z
  | d :: s' =>
      if d =? c then 0%Z
      else let i := indexOf c s' in if (i <? 0)%Z then (-1)%Z else (i + 1)%Z
  end.

(** [s.substring(a, b)]: both indices are clamped to [0, s.length] and
    swapped when out of order. *)
Definition substring (s : list N) (a b : Z) : list N :=
  let len := Z.of_nat (List.length s) in
  let a' := Z.min (Z.max a 0) len in
  let b' := Z.min (Z.max b 0) len in
  let lo := Z.min a' b' in
  let hi := Z.max a' b' in
  take (Z.to_nat (hi - lo)) (drop (Z.to_nat lo) s).

(** [s.replace(/c/g, rep)] for a pattern that is one literal code unit and
    a replacement without [$] patterns. *)
Fixpoint replaceAll (c : N) (rep : list N) (s : list N) : list N :=
  match s with
  | [] => []
  | d :: s' => (if d =? c then rep else [d]) ++ replaceAll c rep s'
  end.

Fixpoint eqb (s t : list N) : bool :=
  match s, t with
  | [], [] => true
  | c :: s', d :: t' => (c =? d) && eqb s' t'
  | _, _ => false
  end.

(** [hay.includes(needle)], as a proposition. *)
Definition includes (hay needle : list N) : Prop :=
  exists pre post, hay = pre ++ needle ++ post.

(** [String.prototype.toLowerCase] restricted to Basic Latin: the case
    mapping of every ASCII string.  The Unicode tables behind the full
    function are not reproduced; the model takes the function as a
    parameter and this one instantiates it. *)
Definition asciiLower (c : N) : N :=
  if (0x41 <=? c) && (c <=? 0x5A) then c + 0x20 else c.

Definition toLowerCaseAscii (s : list N) : list N := List.map asciiLower s.

End Js.

(** ** Data model *)

(** JavaScript's [ToBoolean], which every [if (x)], [!x] and [x || y] of
    the source applies: the empty string and [undefined] are falsy, an
    object reference is truthy. *)
Class Truthy (A : Type) := truthy : A -> bool.

#[global] Instance truthy_string : Truthy (list N) :=
  fun s => match s with [] => false | _ :: _ => true end.

#[global] Instance truthy_option {A} `{Truthy A} : Truthy (option A) :=
  fun o => match o with None => false | Some a => truthy a end.

(** [if (x) yes(x) else no] for a value that may be [undefined]. *)
Definition ifTruthy {A B} `{Truthy A} (x : option A) (yes : A -> B) (no : B) : B :=
  match x with
  | Some a => if truthy a then yes a else no
  | None => no
  end.

(** Handles of the database layer. *)
Record Database := { databaseName : list N }.
Record ServerDataOperator := { database : Database }.
Record ServerDatabase := { operator : ServerDataOperator }.

#[global] Instance truthy_database : Truthy Database := fun _ => true.

Record ChannelModel := { channelModelId : list N; teamId : list N }.

Module UserModel.
Record t := { id : list N; username : list N }.
End UserModel.

Record ClientConfig := { SiteURL : option (list N) }.

(** The REST client and the error it throws. *)
Record Client := { apiClientUrl : list N }.
Record ClientErrorProps := { message : list N; status_code : option N }.

Record CommandArgs := {
  channel_id : list N;
  team_id : list N;
  root_id : option (list N);
  parent_id : option (list N) }.

Record CommandResponse := {
  trigger_id : option (list N);
  goto_location : option (list N);
  response_text : option (list N) }.

(** App calls. *)
Record AppForm := { formTitle : list N }.
#[global] Instance truthy_form : Truthy AppForm := fun _ => true.
Record AppContext := { appContextChannel : list N }.
Record AppCallRequest := { callPath : list N; creqContext : AppContext }.
Record AppCallResponse := {
  type : list N;
  text : option (list N);
  form : option AppForm;
  navigate_to_url : option (list N) }.

(** The constants of [AppCallResponseTypes] that the switch of
    [executeAppCommand] compares with; their values are a parameter. *)
Record AppCallResponseTypes := { OK : list N; FORM : list N; NAVIGATE : list N }.

Record AppCommandParser := {
  parserServerUrl : list N;
  parserChannelId : list N;
  parserTeamId : list N;
  parserRootId : option (list N) }.

Record ComposedCall := { creq : option AppCallRequest; errorMessage : option (list N) }.

(** Modelled from the spec: the constants module [DeepLinkType] is not among
    the sources; the spec's data model lists these five link kinds, and the
    switch of [handleGotoLocation] has one case for each. *)
Inductive DeepLinkType := Channel | Permalink | DirectMessage | GroupMessage | Plugin.

(** The payload of a matched link: the fields the five payload interfaces
    declare, each possibly [undefined]. *)
Module DeepLink.
Record t := {
  serverUrl : option (list N);
  teamName : option (list N);
  channelName : option (list N);
  postId : option (list N);
  userName : option (list N);
  channelId : option (list N);
  id : option (list N) }.

(** A payload without any field. *)
Definition empty : t :=
  {| serverUrl := None; teamName := None; channelName := None; postId := None;
     userName := None; channelId := None; id := None |}.
End DeepLink.

Record DeepLinkWithData := { linkType : DeepLinkType; data : option DeepLink.t }.

(** Localisation. *)
Record MessageDescriptor := { messageId : list N; defaultMessage : list N }.
Record IntlShape := {
  locale : list N;
  formatMessage : MessageDescriptor -> list (list N * list N) -> list N }.

(** The uniform result shape [{data}] or [{error}]. *)
Inductive Result (D E : Type) := Data (d : D) | Error (e : E).
Arguments Data {D E} d.
Arguments Error {D E} e.

Inductive CommandData :=
| BackendResponse (response : option CommandResponse)
| EmptyObject.

Inductive CommandError :=
| ErrorString (s : list N)
| ErrorMessage (errMessage : option (list N))
| ErrorClient (e : ClientErrorProps).

Definition CommandResult := Result CommandData CommandError.
Definition GotoResult := Result bool (list N).

(** ** Effects *)

(** Calls into the navigation layer whose result the caller drops. *)
Inductive Navigation :=
| SwitchToChannelByName (serverUrl : list N) (channelName teamName : option (list N))
| ShowPermalink (serverUrl : list N) (teamName postId : option (list N))
| MakeDirectChannel (serverUrl userId displayName : list N) (shouldSwitch : bool)
| SwitchToChannelById (serverUrl channelId : list N)
| ShowModal (name : list N) (title : option (list N)) (link : list N).

(** The observable calls of one invocation, in order: the request for the
    network client, database queries, network requests, and everything shown
    to the user.  Pure helpers ([matchDeepLink], [displayUsername],
    [formatMessage], [isAppCommand]) and reads of the in-memory registries
    ([serverDatabases], [searchUrl], [IntegrationsManager.getManager]) are
    not logged. *)
Inductive Event :=
| EvGetClient (serverUrl : list N)
| EvGetChannelById (db : Database) (channelId : list N)
| EvGetCurrentTeamId (db : Database)
| EvIsAppsEnabled (serverUrl : list N)
| EvComposeCommandSubmitCall (parser : AppCommandParser) (msg : list N)
| EvDoAppSubmit (serverUrl : list N) (creq : AppCallRequest)
| EvClientExecuteCommand (client : Client) (msg : list N) (args : CommandArgs)
| EvSetTriggerId (serverUrl triggerId : list N)
| EvPostEphemeral (serverUrl : list N) (callResp : AppCallResponse) (text : list N) (args : CommandArgs)
| EvShowAppForm (form : AppForm) (context : AppContext)
| EvGetConfig (db : Database)
| EvQueryUsersByUsername (db : Database) (usernames : list (list N))
| EvGetTeammateNameDisplay (db : Database)
| EvErrorUnknownUser
| EvErrorBadChannel
| EvNavigate (action : Navigation) (succeeded : bool)
| EvTryOpenURL (url : list N)
| EvAlert (title body : list N).

(** The collaborators, as they answer during one invocation. *)
Record Env := {
  (* DatabaseManager.serverDatabases *)
  serverDatabases : gmap (list N) ServerDatabase;
  (* DatabaseManager.searchUrl *)
  searchUrl : list N -> option (list N);
  (* NetworkManager.getClient: the client, or the error it throws *)
  getClient : list N -> ClientErrorProps + Client;
  getChannelById : Database -> list N -> option ChannelModel;
  getCurrentTeamId : Database -> list N;
  isAppsEnabled : list N -> bool;
  isAppCommand : AppCommandParser -> list N -> bool;
  composeCommandSubmitCall : AppCommandParser -> list N -> ComposedCall;
  (* doAppSubmit resolves to one of {error} (left) and {data} (right) *)
  doAppSubmit : list N -> AppCallRequest -> AppCallResponse + AppCallResponse;
  (* client.executeCommand: the response, or the error it throws *)
  clientExecuteCommand : Client -> list N -> CommandArgs -> ClientErrorProps + option CommandResponse;
  (* IntegrationsManager.getManager(serverUrl) is defined *)
  hasIntegrationsManager : list N -> bool;
  getConfig : Database -> option ClientConfig;
  matchDeepLink : list N -> list N -> option (list N) -> option DeepLinkWithData;
  queryUsersByUsername : Database -> list (list N) -> list UserModel.t;
  getTeammateNameDisplay : Database -> list N;
  displayUsername : UserModel.t -> list N -> list N -> list N;
  (* whether a dispatched navigation eventually succeeds *)
  navigationSucceeds : Navigation -> bool;
  (* whether the system can open the URL *)
  canOpenURL : list N -> bool }.

(** A computation that logs events and either has [return]ed a value of
    type [R] (left) or continues with a value of type [A] (right). *)
Definition Act (R A : Type) : Type := list Event * (R + A).

#[global] Instance act_ret {R} : MRet (Act R) := fun A a => ([], inr a).

Definition bind {R A B} (m : Act R A) (f : A -> Act R B) : Act R B :=
  match m with
  | (t, inl r) => (t, inl r)
  | (t, inr a) => let '(t', x) := f a in (t ++ t', x)
  end.

#[global] Instance act_bind {R} : MBind (Act R) := fun A B f m => bind m f.

Notation "'let*' x ':=' m 'in' k" := (bind m (fun x => k))
  (at level 10, x name, m at level 100, k at level 200).

(** The [return] statement. *)
Definition return_ {R A} (r : R) : Act R A := ([], inl r).

(** One logged call with its answer. *)
Definition call {R A} (e : Event) (answer : A) : Act R A := ([e], inr answer).

Definition emit {R} (e : Event) : Act R unit := call e tt.

Definition skip {R} : Act R unit := mret tt.

(** The outcome of a function body: its trace and the value returned. *)
Definition run {R} (m : Act R R) : list Event * R :=
  (m.1, match m.2 with inl r => r | inr r => r end).

(** [await f(...)]. *)
Definition await {R R'} (m : Act R' R') : Act R R' := ((run m).1, inr (run m).2).

(** [f(...)] for an async [f] whose promise is dropped: its events are logged
    where the call is made, its result is lost. *)
Definition detach {R R'} (m : Act R' R') : Act R unit := ((run m).1, inr tt).

Definition trace {R} (m : Act R R) : list Event := (run m).1.
Definition result {R} (m : Act R R) : R := (run m).2.

(** ** The functions of [command.ts] *)

Section Command.

Import Js.

(** [String.prototype.toLowerCase]. *)
Variable toLowerCase : list N -> list N.
Variable ResponseTypes : AppCallResponseTypes.
Variable env : Env.

Definition filterEmDashForCommand (command : list N) : list N :=
  replaceAll EM_DASH (js "--") command.

(** A call into the navigation layer: the action is logged with what
    becomes of it, and nothing comes back to the caller. *)
Definition navigate {R} (action : Navigation) : Act R unit :=
  emit (EvNavigate action (navigationSucceeds env action)).

(** Modelled from the spec: [tryOpenURL] of [@utils/url] is not among the
    sources; it opens the string as an external URL and runs [onError] if
    that fails. *)
Definition tryOpenURL {R} (url : list N) (onError : Act R unit) : Act R unit :=
  emit (EvTryOpenURL url) ;;
  if canOpenURL env url then skip else onError.

(** Lines 147 to 150 of [handleGotoLocation]: the local server the matched
    link points at. *)
Definition linkServerUrl (match_ : option DeepLinkWithData) : option (list N) :=
  ifTruthy ((match_ ≫= data) ≫= DeepLink.serverUrl) (searchUrl env) None.

Definition handleGotoLocation (serverUrl : list N) (intl : IntlShape) (location : list N)
  : Act GotoResult GotoResult :=
  match operator <$> serverDatabases env !! serverUrl with
  | None => return_ (Error (serverUrl ++ js " database not found"))
  | Some operator =>
      let database := database operator in
      let* config := call (EvGetConfig database) (getConfig env database) in
      let match_ := matchDeepLink env location serverUrl (config ≫= SiteURL) in
      let linkServerUrl := linkServerUrl match_ in
      let fallback : Act GotoResult unit :=
        let onError :=
          emit (EvAlert
                  (formatMessage intl
                     {| messageId := js "mobile.server_link.error.title";
                        defaultMessage := js "Link Error" |} [])
                  (formatMessage intl
                     {| messageId := js "mobile.server_link.error.text";
                        defaultMessage := js "The link could not be found on this server." |} [])) in
        tryOpenURL location onError in
      match match_ with
      | None => fallback
      | Some match_ =>
          ifTruthy linkServerUrl
            (fun linkServerUrl =>
               (* [linkServerUrl] is set only when [match.data] is defined *)
               let data := default DeepLink.empty (data match_) in
               match linkType match_ with
               | Channel =>
                   navigate (SwitchToChannelByName linkServerUrl
                               (DeepLink.channelName data) (DeepLink.teamName data))
               | Permalink =>
                   navigate (ShowPermalink linkServerUrl
                               (DeepLink.teamName data) (DeepLink.postId data))
               | DirectMessage =>
                   ifTruthy (DeepLink.userName data)
                     (fun userName =>
                        (if negb (bool_decide (DeepLink.serverUrl data = Some serverUrl))
                         then
                           if negb (truthy database)
                           then return_ (Error (serverUrl ++ js " database not found"))
                           else skip
                         else skip) ;;
                        let* users := call (EvQueryUsersByUsername database [userName])
                                     (queryUsersByUsername env database [userName]) in
                        match head users with
                        | None => emit EvErrorUnknownUser ;; return_ (Data false)
                        | Some user =>
                            let* teammateNameDisplay := call (EvGetTeammateNameDisplay database)
                                   (getTeammateNameDisplay env database) in
                            navigate (MakeDirectChannel linkServerUrl (UserModel.id user)
                                        (displayUsername env user (locale intl) teammateNameDisplay)
                                        true)
                        end)
                     (emit EvErrorUnknownUser ;; return_ (Data false))
               | GroupMessage =>
                   ifTruthy (DeepLink.channelId data)
                     (fun channelId => navigate (SwitchToChannelById linkServerUrl channelId))
                     (emit EvErrorBadChannel ;; return_ (Data false))
               | Plugin =>
                   navigate (ShowModal (js "PluginInternal") (DeepLink.id data) location)
               end)
            fallback
      end ;;
      return_ (Data true)
  end.

Definition executeAppCommand (serverUrl : list N) (intl : IntlShape)
    (parser : AppCommandParser) (msg : list N) (args : CommandArgs)
  : Act CommandResult CommandResult :=
  let* composed := call (EvComposeCommandSubmitCall parser msg)
                  (composeCommandSubmitCall env parser msg) in
  let createErrorMessage (errMessage : option (list N)) : CommandResult :=
    Error (ErrorMessage errMessage) in
  match creq composed with
  | None => return_ (createErrorMessage (errorMessage composed))
  | Some creq =>
      let* res := call (EvDoAppSubmit serverUrl creq) (doAppSubmit env serverUrl creq) in
      match res with
      | inl errorResponse =>
          return_ (createErrorMessage (Some (
            ifTruthy (text errorResponse) (fun text => text)
              (formatMessage intl
                 {| messageId := js "apps.error.unknown";
                    defaultMessage := js "Unknown error." |} []))))
      | inr callResp =>
          if eqb (type callResp) (OK ResponseTypes) then
            ifTruthy (text callResp)
              (fun text => emit (EvPostEphemeral serverUrl callResp text args))
              skip ;;
            return_ (Data EmptyObject)
          else if eqb (type callResp) (FORM ResponseTypes) then
            ifTruthy (form callResp)
              (fun form => emit (EvShowAppForm form (creqContext creq)))
              skip ;;
            return_ (Data EmptyObject)
          else if eqb (type callResp) (NAVIGATE ResponseTypes) then
            ifTruthy (navigate_to_url callResp)
              (fun url => detach (handleGotoLocation serverUrl intl url))
              skip ;;
            return_ (Data EmptyObject)
          else
            return_ (createErrorMessage (Some (
              formatMessage intl
                {| messageId := js "apps.error.responses.unknown_type";
                   defaultMessage :=
                     js "App response type not supported. Response type: {type}." |}
                [(js "type", type callResp)])))
      end
  end.

(** Lines 60 to 72 of [executeCommand]: the message as it is sent to the
    backend. *)
Definition recompose (message : list N) : list N :=
  let msg := filterEmDashForCommand message in
  let cmdLength := indexOf SPACE msg in
  let cmdLength := if (cmdLength <? 0)%Z then Z.of_nat (List.length msg) else cmdLength in
  let cmd := toLowerCase (substring msg 0 cmdLength) in
  if eqb cmd (js "/code")
  then cmd ++ js " " ++ trimEnd (substring msg cmdLength (Z.of_nat (List.length msg)))
  else cmd ++ js " " ++ trim (substring msg cmdLength (Z.of_nat (List.length msg))).

Definition executeCommand (serverUrl : list N) (intl : IntlShape)
    (message channelId : list N) (rootId : option (list N))
  : Act CommandResult CommandResult :=
  match operator <$> serverDatabases env !! serverUrl with
  | None => return_ (Error (ErrorString (serverUrl ++ js " database not found")))
  | Some operator =>
      let* found := call (EvGetClient serverUrl) (getClient env serverUrl) in
      match found with
      | inl error => return_ (Error (ErrorClient error))
      | inr client =>
          let* channel := call (EvGetChannelById (database operator) channelId)
                         (getChannelById env (database operator) channelId) in
          let* teamId := ifTruthy (teamId <$> channel) mret
                     (call (EvGetCurrentTeamId (database operator))
                           (getCurrentTeamId env (database operator))) in
          let args :=
            {| channel_id := channelId; team_id := teamId;
               root_id := rootId; parent_id := rootId |} in
          let* appsEnabled := call (EvIsAppsEnabled serverUrl) (isAppsEnabled env serverUrl) in
          (if appsEnabled then
             let parser :=
               {| parserServerUrl := serverUrl; parserChannelId := channelId;
                  parserTeamId := teamId; parserRootId := rootId |} in
             if isAppCommand env parser message
             then let* r := await (executeAppCommand serverUrl intl parser message args) in
                  return_ r
             else skip
           else skip) ;;
          let msg := recompose message in
          let* answer := call (EvClientExecuteCommand client msg args)
                        (clientExecuteCommand env client msg args) in
          match answer with
          | inl error => return_ (Error (ErrorClient error))
          | inr data =>
              ifTruthy (data ≫= trigger_id)
                (fun trigger_id =>
                   if hasIntegrationsManager env serverUrl
                   then emit (EvSetTriggerId serverUrl trigger_id)
                   else skip)
                skip ;;
              return_ (Data (BackendResponse data))
          end
      end
  end.

End Command.

(** ** Vocabulary of the statements *)

(** What a trace shows: the messages sent to the backend executor, the
    calls of the app pipeline, the URLs handed to the external opener, the
    navigation actions dispatched, and the databases queried for users. *)
Definition sentToBackend (t : list Event) : list (list N) :=
  omap (fun e => match e with EvClientExecuteCommand _ msg _ => Some msg | _ => None end) t.

Definition isAppPipelineCall (e : Event) : bool :=
  match e with
  | EvComposeCommandSubmitCall _ _ | EvDoAppSubmit _ _ => true
  | _ => false
  end.

Definition appPipelineCalls (t : list Event) : list Event :=
  List.filter isAppPipelineCall t.

Definition openedURLs (t : list Event) : list (list N) :=
  omap (fun e => match e with EvTryOpenURL url => Some url | _ => None end) t.

Definition navigations (t : list Event) : list Navigation :=
  omap (fun e => match e with EvNavigate action _ => Some action | _ => None end) t.

Definition userQueries (t : list Event) : list Database :=
  omap (fun e => match e with EvQueryUsersByUsername db _ => Some db | _ => None end) t.

(** The command context an event carries. *)
Definition eventArgs (e : Event) : option CommandArgs :=
  match e with
  | EvClientExecuteCommand _ _ args | EvPostEphemeral _ _ _ args => Some args
  | _ => None
  end.

Definition allWhiteSpace (s : list N) : bool := forallb Js.isWhiteSpace s.

Definition startsWithWhiteSpace (s : list N) : bool :=
  match s with c :: _ => Js.isWhiteSpace c | [] => false end.

Definition endsWithWhiteSpace (s : list N) : bool :=
  match last s with Some c => Js.isWhiteSpace c | None => false end.

(** The team id and the parser that [executeCommand] builds before it
    classifies the message. *)
Definition contextTeamId (env : Env) (db : Database) (channelId : list N) : list N :=
  match getChannelById env db channelId with
  | Some channel => if truthy (teamId channel) then teamId channel else getCurrentTeamId env db
  | None => getCurrentTeamId env db
  end.

Definition contextArgs (env : Env) (db : Database) (channelId : list N)
    (rootId : option (list N)) : CommandArgs :=
  {| channel_id := channelId; team_id := contextTeamId env db channelId;
     root_id := rootId; parent_id := rootId |}.

Definition contextParser (env : Env) (db : Database) (serverUrl channelId : list N)
    (rootId : option (list N)) : AppCommandParser :=
  {| parserServerUrl := serverUrl; parserChannelId := channelId;
     parserTeamId := contextTeamId env db channelId; parserRootId := rootId |}.

(** The classifier: the app subsystem is enabled for the server and its
    parser recognises the message. *)
Definition isAppPath (env : Env) (db : Database) (serverUrl message channelId : list N)
    (rootId : option (list N)) : bool :=
  isAppsEnabled env serverUrl
  && isAppCommand env (contextParser env db serverUrl channelId rootId) message.

(** react-intl without a catalogue entry for the message: the default
    message, each [{name}] replaced by the value supplied for [name].  The
    accumulator holds the placeholder name being read, reversed. *)
Fixpoint formatTemplate (values : list (list N * list N)) (template : list N)
    (name : option (list N)) : list N :=
  match template with
  | [] => match name with None => [] | Some n => 123 :: rev n end
  | c :: rest =>
      match name with
      | None =>
          if c =? 123 then formatTemplate values rest (Some [])
          else c :: formatTemplate values rest None
      | Some n =>
          if c =? 125
          then match List.find (fun kv => Js.eqb kv.1 (rev n)) values with
               | Some kv => kv.2
               | None => []
               end ++ formatTemplate values rest None
          else formatTemplate values rest (Some (c :: n))
      end
  end.

Definition rendersDefault (intl : IntlShape) (d : MessageDescriptor) : Prop :=
  forall values, formatMessage intl d values = formatTemplate values (defaultMessage d) None.

(** The deep link that [handleGotoLocation] matches [location] against. *)
Definition matchedLink (env : Env) (db : Database) (serverUrl location : list N)
  : option DeepLinkWithData :=
  matchDeepLink env location serverUrl (getConfig env db ≫= SiteURL).

(** The payload checks of the DirectMessage and GroupMessage branches: a
    user name that names a known user, a channel id. *)
Definition passesPayloadChecks (env : Env) (db : Database) (kind : DeepLinkType)
    (d : DeepLink.t) : bool :=
  match kind with
  | DirectMessage =>
      match DeepLink.userName d with
      | Some userName =>
          truthy userName
          && match queryUsersByUsername env db [userName] with [] => false | _ :: _ => true end
      | None => false
      end
  | GroupMessage => truthy (DeepLink.channelId d)
  | Channel | Permalink | Plugin => true
  end.

(** What the matched branch of [handleGotoLocation] does for a link of kind
    [kind] with payload [d] resolved to the server [link]: the events after
    the configuration was read, and whether a navigation was dispatched. *)
Definition dispatched (env : Env) (db : Database) (intl : IntlShape)
    (location link : list N) (kind : DeepLinkType) (d : DeepLink.t) : list Event * bool :=
  let go action := ([EvNavigate action (navigationSucceeds env action)], true) in
  match kind with
  | Channel => go (SwitchToChannelByName link (DeepLink.channelName d) (DeepLink.teamName d))
  | Permalink => go (ShowPermalink link (DeepLink.teamName d) (DeepLink.postId d))
  | DirectMessage =>
      match DeepLink.userName d with
      | Some (c :: u) =>
          match queryUsersByUsername env db [c :: u] with
          | user :: _ =>
              let action :=
                MakeDirectChannel link (UserModel.id user)
                  (displayUsername env user (locale intl) (getTeammateNameDisplay env db))
                  true in
              ([EvQueryUsersByUsername db [c :: u]; EvGetTeammateNameDisplay db;
                EvNavigate action (navigationSucceeds env action)], true)
          | [] => ([EvQueryUsersByUsername db [c :: u]; EvErrorUnknownUser], false)
          end
      | _ => ([EvErrorUnknownUser], false)
      end
  | GroupMessage =>
      match DeepLink.channelId d with
      | Some (c :: i) => go (SwitchToChannelById link (c :: i))
      | _ => ([EvErrorBadChannel], false)
      end
  | Plugin => go (ShowModal (Js.js "PluginInternal") (DeepLink.id d) location)
  end.

(** The events before the message is classified, and after the backend
    has answered. *)
Definition contextEvents (env : Env) (db : Database) (serverUrl channelId : list N)
  : list Event :=
  EvGetClient serverUrl
  :: EvGetChannelById db channelId
  :: match getChannelById env db channelId with
     | Some channel => if truthy (teamId channel) then [] else [EvGetCurrentTeamId db]
     | None => [EvGetCurrentTeamId db]
     end
  ++ [EvIsAppsEnabled serverUrl].

Definition triggerEvents (env : Env) (serverUrl : list N) (data : option CommandResponse)
  : list Event :=
  match data ≫= trigger_id with
  | Some t =>
      if truthy t && hasIntegrationsManager env serverUrl
      then [EvSetTriggerId serverUrl t] else []
  | None => []
  end.


Definition unknownTypeMessage : MessageDescriptor :=
  {| messageId := Js.js "apps.error.responses.unknown_type";
     defaultMessage := Js.js "App response type not supported. Response type: {type}." |}.

(** The current-team queries a trace shows. *)
Definition teamQueries (t : list Event) : list Database :=
  omap (fun e => match e with EvGetCurrentTeamId db => Some db | _ => None end) t.

(** How the non-app path of [executeCommand] treats the argument segment:
    [message], with its em-dashes replaced, splits at the first space into
    [cmd] and [rest]; after [/code] the remainder keeps its leading
    whitespace and loses its trailing whitespace, after any other command
    it loses both. *)
Definition argumentTrimmed (toLowerCase : list N -> list N) (message sent : list N) : Prop :=
  exists cmd rest,
    filterEmDashForCommand message = cmd ++ rest
    /\ (Js.SPACE ∉ cmd)
    /\ (rest = [] \/ exists r, rest = Js.SPACE :: r)
    /\ (toLowerCase cmd = Js.js "/code" ->
        exists arg ws,
          sent = Js.js "/code" ++ Js.js " " ++ arg
          /\ rest = arg ++ ws
          /\ allWhiteSpace ws = true
          /\ endsWithWhiteSpace arg = false)
    /\ (toLowerCase cmd <> Js.js "/code" ->
        exists ws1 arg ws2,
          sent = toLowerCase cmd ++ Js.js " " ++ arg
          /\ rest = ws1 ++ arg ++ ws2
          /\ allWhiteSpace ws1 = true /\ allWhiteSpace ws2 = true
          /\ startsWithWhiteSpace arg = false
          /\ endsWithWhiteSpace arg = false).

(** ** A concrete server

    One registered server, [https://a.example], whose collaborators answer
    as the arguments say; used to run the functions on explicit inputs. *)
Module Sample.
Import Js.

Definition serverUrl : list N := js "https://a.example".
Definition db : Database := {| databaseName := js "a" |}.
Definition client : Client := {| apiClientUrl := serverUrl |}.
Definition types : AppCallResponseTypes :=
  {| OK := js "ok"; FORM := js "form"; NAVIGATE := js "navigate" |}.
Definition intl : IntlShape :=
  {| locale := js "en";
     formatMessage := fun d values => formatTemplate values (defaultMessage d) None |}.
Definition submitCall : AppCallRequest :=
  {| callPath := js "/submit"; creqContext := {| appContextChannel := js "ch1" |} |}.
Definition alice : UserModel.t := {| UserModel.id := js "u1"; UserModel.username := js "alice" |}.

Definition server (channel : option ChannelModel) (apps : bool) (response : AppCallResponse)
    (link : option DeepLinkWithData) (resolve : list N -> option (list N))
    (users : list UserModel.t) : Env :=
  {| serverDatabases := {[ serverUrl := {| operator := {| database := db |} |} ]};
     searchUrl := resolve;
     getClient := fun _ => inr client;
     getChannelById := fun _ _ => channel;
     getCurrentTeamId := fun _ => js "team1";
     isAppsEnabled := fun _ => apps;
     isAppCommand := fun _ _ => true;
     composeCommandSubmitCall := fun _ _ => {| creq := Some submitCall; errorMessage := None |};
     doAppSubmit := fun _ _ => inr response;
     clientExecuteCommand := fun _ _ _ => inr None;
     hasIntegrationsManager := fun _ => true;
     getConfig := fun _ => None;
     matchDeepLink := fun _ _ _ => link;
     queryUsersByUsername := fun _ _ => users;
     getTeammateNameDisplay := fun _ => js "username";
     displayUsername := fun user _ _ => UserModel.username user;
     navigationSucceeds := fun _ => false;
     canOpenURL := fun _ => true |}.

(** A response whose type tag is none of the three supported ones. *)
Definition bogusResponse : AppCallResponse :=
  {| type := js "bogus"; text := None; form := None; navigate_to_url := None |}.

(** The server with apps disabled and no deep link matching. *)
Definition plain : Env := server None false bogusResponse None (fun _ => None) [].

(** A channel without a team, as direct-message channels are. *)
Definition directChannel : ChannelModel := {| channelModelId := js "ch1"; teamId := [] |}.

(** The server where channel [ch1] is such a channel. *)
Definition teamless : Env := server (Some directChannel) false bogusResponse None (fun _ => None) [].

(** The server with apps enabled; the app answers with [bogusResponse]. *)
Definition withApps : Env := server None true bogusResponse None (fun _ => None) [].

(** [/echo a—b], typed with an em-dash. *)
Definition dashed : list N := js "/echo a" ++ [EM_DASH] ++ js "b".

Definition link (kind : DeepLinkType) (userName channelId : option (list N)) : DeepLinkWithData :=
  {| linkType := kind;
     data := Some {| DeepLink.serverUrl := Some (js "https://b.example");
                     DeepLink.teamName := Some (js "team");
                     DeepLink.channelName := Some (js "town-square");
                     DeepLink.postId := None;
                     DeepLink.userName := userName;
                     DeepLink.channelId := channelId;
                     DeepLink.id := None |} |}.

(** A deep-link matcher that matches every link as [l]; [resolve] tells
    whether the link's server is known locally. *)
Definition linked (l : DeepLinkWithData) (resolve : bool) (users : list UserModel.t) : Env :=
  server None false bogusResponse (Some l)
    (fun url => if resolve then Some url else None) users.

(** A link into the other server. *)
Definition location : list N := js "https://b.example/team/channels/town-square".

End Sample.

(** ** Command listing and suggestions

    [fetchCommands] and [fetchSuggestions] use two read operations of the
    REST client that the other functions do not; they are a record of their
    own, and the requests of one invocation are logged in a trace of their
    own. *)

Record Command := { commandId : list N; trigger : list N }.
Record AutocompleteSuggestion := { Complete : list N; Suggestion : list N }.

(** The list, or the error the operation throws. *)
Record CommandsApi := {
  getCommandsList : Client -> list N -> ClientErrorProps + list Command;
  getCommandAutocompleteSuggestionsList :
    Client -> list N -> list N -> list N -> option (list N)
    -> ClientErrorProps + list AutocompleteSuggestion }.

Inductive Request :=
| ReqGetClient (serverUrl : list N)
| ReqGetCommandsList (client : Client) (teamId : list N)
| ReqGetCommandAutocompleteSuggestionsList (client : Client)
    (term teamId channelId : list N) (rootId : option (list N)).

(** [{commands}] or [{error}], and [{suggestions}] or [{error}]. *)
Inductive CommandsResult :=
| Commands (commands : list Command)
| CommandsError (error : ClientErrorProps).

Inductive SuggestionsResult :=
| Suggestions (suggestions : list AutocompleteSuggestion)
| SuggestionsError (error : ClientErrorProps).

Definition fetchCommands (env : Env) (api : CommandsApi) (serverUrl teamId : list N)
  : list Request * CommandsResult :=
  match getClient env serverUrl with
  | inl error => ([ReqGetClient serverUrl], CommandsError error)
  | inr client =>
      match getCommandsList api client teamId with
      | inl error =>
          ([ReqGetClient serverUrl; ReqGetCommandsList client teamId], CommandsError error)
      | inr commands =>
          ([ReqGetClient serverUrl; ReqGetCommandsList client teamId], Commands commands)
      end
  end.

Definition fetchSuggestions (env : Env) (api : CommandsApi)
    (serverUrl term teamId channelId : list N) (rootId : option (list N))
  : list Request * SuggestionsResult :=
  match getClient env serverUrl with
  | inl error => ([ReqGetClient serverUrl], SuggestionsError error)
  | inr client =>
      match getCommandAutocompleteSuggestionsList api client term teamId channelId rootId with
      | inl error =>
          ([ReqGetClient serverUrl;
            ReqGetCommandAutocompleteSuggestionsList client term teamId channelId rootId],
           SuggestionsError error)
      | inr suggestions =>
          ([ReqGetClient serverUrl;
            ReqGetCommandAutocompleteSuggestionsList client term teamId channelId rootId],
           Suggestions suggestions)
      end
  end.

(** ** More vocabulary *)

(** The number of occurrences of a code unit. *)
Definition countUnit (c : N) (s : list N) : nat := List.length (List.filter (N.eqb c) s).

(** The trigger ids recorded, the ephemeral posts made and the forms shown
    in a trace. *)
Definition triggerIds (t : list Event) : list (list N) :=
  omap (fun e => match e with EvSetTriggerId _ id => Some id | _ => None end) t.

Definition ephemeralPosts (t : list Event) : list (list N * CommandArgs) :=
  omap (fun e => match e with EvPostEphemeral _ _ text args => Some (text, args) | _ => None end) t.

Definition shownForms (t : list Event) : list (AppForm * AppContext) :=
  omap (fun e => match e with EvShowAppForm form context => Some (form, context) | _ => None end) t.

(** The alerts of [DraftUtils] in a trace. *)
Definition isLinkError (e : Event) : bool :=
  match e with EvErrorUnknownUser | EvErrorBadChannel => true | _ => false end.

(** The server a navigation action is sent to; the plugin modal has none. *)
Definition navigationServer (action : Navigation) : option (list N) :=
  match action with
  | SwitchToChannelByName serverUrl _ _ | ShowPermalink serverUrl _ _
  | MakeDirectChannel serverUrl _ _ _ | SwitchToChannelById serverUrl _ => Some serverUrl
  | ShowModal _ _ _ => None
  end.

(** The requests that go over the network. *)
Definition isNetworkRequest (r : Request) : bool :=
  match r with ReqGetClient _ => false | _ => true end.

(** [sent] is recomposed from the filtered message [filtered]: the text
    before the first space lower-cased, one space, and the text from that
    space on, trimmed at its end after [/code] and at both ends after any
    other command. *)
Definition recomposedFrom (toLowerCase : list N -> list N) (filtered sent : list N) : Prop :=
  exists cmd rest,
    filtered = cmd ++ rest
    /\ (Js.SPACE ∉ cmd)
    /\ (rest = [] \/ exists r, rest = Js.SPACE :: r)
    /\ sent = toLowerCase cmd ++ Js.js " "
              ++ (if Js.eqb (toLowerCase cmd) (Js.js "/code")
                  then Js.trimEnd rest else Js.trim rest).

(** ** More concrete servers *)
Module Cases.
Import Js.

Definition thrown : ClientErrorProps := {| message := js "no client"; status_code := None |}.
Definition refused : ClientErrorProps := {| message := js "refused"; status_code := Some 500 |}.

(** A server like [Sample.server], with every answer of the command
    pipeline given explicitly. *)
Definition server (registered : bool) (found : ClientErrorProps + Client) (apps : bool)
    (composed : ComposedCall) (submitted : AppCallResponse + AppCallResponse)
    (answered : ClientErrorProps + option CommandResponse) (manager : bool)
    (link : option DeepLinkWithData) (users : list UserModel.t) : Env :=
  {| serverDatabases :=
       if registered
       then {[ Sample.serverUrl := {| operator := {| database := Sample.db |} |} ]}
       else ∅;
     searchUrl := fun url => Some url;
     getClient := fun _ => found;
     getChannelById := fun _ _ => None;
     getCurrentTeamId := fun _ => js "team1";
     isAppsEnabled := fun _ => apps;
     isAppCommand := fun _ _ => true;
     composeCommandSubmitCall := fun _ _ => composed;
     doAppSubmit := fun _ _ => submitted;
     clientExecuteCommand := fun _ _ _ => answered;
     hasIntegrationsManager := fun _ => manager;
     getConfig := fun _ => None;
     matchDeepLink := fun _ _ _ => link;
     queryUsersByUsername := fun _ _ => users;
     getTeammateNameDisplay := fun _ => js "username";
     displayUsername := fun user _ _ => UserModel.username user;
     navigationSucceeds := fun _ => true;
     canOpenURL := fun _ => true |}.

Definition ready : ComposedCall := {| creq := Some Sample.submitCall; errorMessage := None |}.

(** The backend path with the given answer of the backend. *)
Definition backend (answered : ClientErrorProps + option CommandResponse) : Env :=
  server true (inr Sample.client) false ready (inr Sample.bogusResponse) answered true None [].

(** The app path with the given composed call and answer of the app. *)
Definition app (composed : ComposedCall) (submitted : AppCallResponse + AppCallResponse)
    (link : option DeepLinkWithData) : Env :=
  server true (inr Sample.client) true composed submitted (inr None) true link [].

Definition triggered : CommandResponse :=
  {| trigger_id := Some (js "t42"); goto_location := None; response_text := None |}.

Definition response (tag : list N) (text : option (list N)) (form : option AppForm)
    (url : option (list N)) : AppCallResponse :=
  {| type := tag; text := text; form := form; navigate_to_url := url |}.

Definition api : CommandsApi :=
  {| getCommandsList := fun _ _ => inr [ {| commandId := js "c1"; trigger := js "away" |} ];
     getCommandAutocompleteSuggestionsList := fun _ _ _ _ _ => inl refused |}.

End Cases.

(** Unfold the monad of [Act] down to pairs; [act_unfold] also opens the
    truthiness tests. *)
Ltac act_steps :=
  unfold trace, result, run, await, detach, navigate, tryOpenURL, emit, skip, call,
    return_, mbind, act_bind, bind, mret, act_ret in *.

Ltac act_unfold := act_steps; unfold ifTruthy in *.

(** ** Strings: lemmas *)

Example js_literal : Js.js "/code" = [47; 99; 111; 100; 101].
Proof. reflexivity. Qed.

Example trimEnd_example : Js.trimEnd (Js.js " arg  ") = Js.js " arg".
Proof. reflexivity. Qed.

Example trim_example : Js.trim (Js.js "   x ") = Js.js "x".
Proof. reflexivity. Qed.

Example indexOf_example :
  Js.indexOf Js.SPACE (Js.js "/code arg") = 5%Z /\
  Js.indexOf Js.SPACE (Js.js "/away") = (-1)%Z.
Proof. split; reflexivity. Qed.

Example substring_example :
  Js.substring (Js.js "/code arg") 0 5 = Js.js "/code" /\
  Js.substring (Js.js "/code arg") 5 9 = Js.js " arg".
Proof. split; reflexivity. Qed.

Section StringLemmas.

Import Js.

Lemma eqb_eq (s t : list N) : eqb s t = true <-> s = t.
Proof.
  revert t. induction s as [|c s IH]; intros [|d t]; simpl; try (split; congruence).
  rewrite andb_true_iff, N.eqb_eq, IH. split.
  - intros [-> ->]. reflexivity.
  - intros [= -> ->]. auto.
Qed.

Lemma eqb_neq (s t : list N) : eqb s t = false <-> s <> t.
Proof.
  rewrite <- eqb_eq. destruct (eqb s t); split; congruence.
Qed.

Lemma replaceAll_concat_map (c : N) (rep s : list N) :
  replaceAll c rep s = concat (List.map (fun d => if d =? c then rep else [d]) s).
Proof.
  induction s as [|d s IH]; simpl; [reflexivity|]. now rewrite IH.
Qed.

Lemma replaceAll_removes (c : N) (rep s : list N) :
  c ∉ rep -> c ∉ replaceAll c rep s.
Proof.
  intros Hrep. induction s as [|d s IH]; simpl.
  - apply not_elem_of_nil.
  - rewrite elem_of_app. intros [H|H]; [|tauto].
    destruct (N.eqb_spec d c) as [->|Hne]; [tauto|].
    apply list_elem_of_singleton in H. congruence.
Qed.

Lemma trimStart_split (s : list N) :
  exists ws, s = ws ++ trimStart s /\ allWhiteSpace ws = true
             /\ startsWithWhiteSpace (trimStart s) = false.
Proof.
  induction s as [|c s (ws & Hs & Hws & Hhd)]; simpl.
  - exists []. auto.
  - destruct (isWhiteSpace c) eqn:Hc.
    + exists (c :: ws). simpl. rewrite Hc, Hws. split; [congruence|auto].
    + exists []. simpl. rewrite Hc. auto.
Qed.

Lemma endsWithWhiteSpace_cons (c : N) (s : list N) :
  s <> [] -> endsWithWhiteSpace (c :: s) = endsWithWhiteSpace s.
Proof.
  unfold endsWithWhiteSpace. destruct s; [congruence|reflexivity].
Qed.

Lemma trimEnd_split (s : list N) :
  exists ws, s = trimEnd s ++ ws /\ allWhiteSpace ws = true
             /\ endsWithWhiteSpace (trimEnd s) = false.
Proof.
  induction s as [|c s (ws & Hs & Hws & Hend)]; simpl.
  - exists []. auto.
  - destruct (trimEnd s) as [|d t] eqn:Ht.
    + destruct (isWhiteSpace c) eqn:Hc.
      * exists (c :: ws). simpl in *. rewrite Hc, Hws. split; [congruence|auto].
      * exists ws. simpl in *. split; [congruence|].
        split; [assumption|]. unfold endsWithWhiteSpace. simpl. assumption.
    + exists ws. split; [simpl in *; congruence|]. split; [assumption|].
      rewrite endsWithWhiteSpace_cons; [assumption|discriminate].
Qed.

Lemma trimEnd_keeps_head (c : N) (s : list N) :
  isWhiteSpace c = false -> exists t, trimEnd (c :: s) = c :: t.
Proof.
  intros Hc. simpl. destruct (trimEnd s); rewrite ?Hc; eauto.
Qed.

Lemma trim_split (s : list N) :
  exists ws1 ws2, s = ws1 ++ trim s ++ ws2
    /\ allWhiteSpace ws1 = true /\ allWhiteSpace ws2 = true
    /\ startsWithWhiteSpace (trim s) = false /\ endsWithWhiteSpace (trim s) = false.
Proof.
  unfold trim.
  destruct (trimStart_split s) as (ws1 & Hs & Hws1 & Hhd).
  destruct (trimEnd_split (trimStart s)) as (ws2 & Ht & Hws2 & Hend).
  exists ws1, ws2. split; [congruence|]. repeat split; try assumption.
  destruct (trimStart s) as [|c t]; [reflexivity|].
  simpl in Hhd. destruct (trimEnd_keeps_head c t Hhd) as [t' ->]. exact Hhd.
Qed.

Lemma indexOf_spec (c : N) (s : list N) :
  (indexOf c s = (-1)%Z /\ c ∉ s)
  \/ (exists n r, indexOf c s = Z.of_nat n /\ (c ∉ take n s) /\ drop n s = c :: r).
Proof.
  induction s as [|d s IH]; simpl.
  - left. split; [reflexivity|apply not_elem_of_nil].
  - destruct (N.eqb_spec d c) as [->|Hne].
    + right. exists 0%nat, s. repeat split. simpl. apply not_elem_of_nil.
    + destruct IH as [[-> Hnot]|(n & r & -> & Hnot & Hdrop)].
      * left. split; [reflexivity|]. rewrite not_elem_of_cons. split; congruence.
      * right. exists (S n), r.
        destruct (Z.ltb_spec (Z.of_nat n) 0); [lia|].
        split; [lia|]. simpl. split; [|assumption].
        rewrite not_elem_of_cons. split; congruence.
Qed.

Lemma substring_prefix (s : list N) (n : nat) :
  (n <= List.length s)%nat -> substring s 0 (Z.of_nat n) = take n s.
Proof.
  intros Hn. unfold substring.
  replace (Z.min (Z.max 0 0) (Z.of_nat (List.length s))) with 0%Z by lia.
  replace (Z.min (Z.max (Z.of_nat n) 0) (Z.of_nat (List.length s))) with (Z.of_nat n) by lia.
  replace (Z.min 0 (Z.of_nat n)) with 0%Z by lia.
  replace (Z.max 0 (Z.of_nat n) - 0)%Z with (Z.of_nat n) by lia.
  rewrite Nat2Z.id. reflexivity.
Qed.

Lemma substring_suffix (s : list N) (n : nat) :
  (n <= List.length s)%nat ->
  substring s (Z.of_nat n) (Z.of_nat (List.length s)) = drop n s.
Proof.
  intros Hn. unfold substring.
  replace (Z.min (Z.max (Z.of_nat n) 0) (Z.of_nat (List.length s))) with (Z.of_nat n) by lia.
  replace (Z.min (Z.max (Z.of_nat (List.length s)) 0) (Z.of_nat (List.length s)))
    with (Z.of_nat (List.length s)) by lia.
  replace (Z.min (Z.of_nat n) (Z.of_nat (List.length s))) with (Z.of_nat n) by lia.
  replace (Z.max (Z.of_nat n) (Z.of_nat (List.length s))) with (Z.of_nat (List.length s)) by lia.
  rewrite Nat2Z.id. apply take_ge. rewrite length_drop. lia.
Qed.

(** Lines 62 to 65: the command token ends at the first space, or at the
    end of the message. *)
Lemma first_space_split (msg : list N) :
  let i := indexOf SPACE msg in
  let cmdLength := if (i <? 0)%Z then Z.of_nat (List.length msg) else i in
  msg = substring msg 0 cmdLength ++ substring msg cmdLength (Z.of_nat (List.length msg))
  /\ (SPACE ∉ substring msg 0 cmdLength)
  /\ (substring msg cmdLength (Z.of_nat (List.length msg)) = []
      \/ exists r, substring msg cmdLength (Z.of_nat (List.length msg)) = SPACE :: r).
Proof.
  simpl. destruct (indexOf_spec SPACE msg) as [[-> Hnot]|(n & r & -> & Hnot & Hdrop)].
  - simpl. rewrite substring_prefix, substring_suffix by lia.
    rewrite firstn_all, drop_all, app_nil_r. auto.
  - destruct (Z.ltb_spec (Z.of_nat n) 0); [lia|].
    assert (n <= List.length msg)%nat as Hn.
    { destruct (Nat.le_gt_cases n (List.length msg)) as [|Hgt]; [assumption|].
      rewrite drop_ge in Hdrop by lia. discriminate. }
    rewrite substring_prefix, substring_suffix by assumption.
    rewrite take_drop. split; [reflexivity|]. split; [assumption|]. right. eauto.
Qed.

Lemma elem_of_trimStart (c : N) (s : list N) : c ∈ trimStart s -> c ∈ s.
Proof.
  destruct (trimStart_split s) as (ws & Hs & _). intros H.
  rewrite Hs, elem_of_app. auto.
Qed.

Lemma elem_of_trimEnd (c : N) (s : list N) : c ∈ trimEnd s -> c ∈ s.
Proof.
  destruct (trimEnd_split s) as (ws & Hs & _). intros H.
  rewrite Hs, elem_of_app. auto.
Qed.

Lemma elem_of_trim (c : N) (s : list N) : c ∈ trim s -> c ∈ s.
Proof.
  unfold trim. intros H. apply elem_of_trimStart, elem_of_trimEnd, H.
Qed.

Lemma elem_of_substring (c : N) (s : list N) (a b : Z) : c ∈ substring s a b -> c ∈ s.
Proof.
  unfold substring. intros H.
  apply subseteq_take in H. apply subseteq_drop in H. exact H.
Qed.

End StringLemmas.

(** ** Traces of the three functions *)

Section Traces.

Import Js.

Variable toLowerCase : list N -> list N.
Variable ResponseTypes : AppCallResponseTypes.
Variable env : Env.

(** *** [handleGotoLocation] *)

Lemma handleGotoLocation_missing_database serverUrl intl location :
  serverDatabases env !! serverUrl = None ->
  run (handleGotoLocation env serverUrl intl location)
  = ([], Error (serverUrl ++ js " database not found")).
Proof.
  intros Hdb. unfold handleGotoLocation. rewrite Hdb. reflexivity.
Qed.

(** No call of the command pipelines, and no command context, in a trace of
    [handleGotoLocation]. *)
Lemma handleGotoLocation_quiet serverUrl intl location :
  sentToBackend (trace (handleGotoLocation env serverUrl intl location)) = []
  /\ appPipelineCalls (trace (handleGotoLocation env serverUrl intl location)) = []
  /\ Forall (fun e => eventArgs e = None)
            (trace (handleGotoLocation env serverUrl intl location)).
Proof.
  unfold handleGotoLocation, linkServerUrl. act_unfold.
  repeat (case_match; simplify_eq/=); repeat split; auto.
Qed.

Lemma handleGotoLocation_fallback serverUrl intl location sdb :
  serverDatabases env !! serverUrl = Some sdb ->
  let db := database (operator sdb) in
  matchedLink env db serverUrl location = None
  \/ truthy (linkServerUrl env (matchedLink env db serverUrl location)) = false ->
  exists alerts,
    run (handleGotoLocation env serverUrl intl location)
    = (EvGetConfig db :: EvTryOpenURL location :: alerts, Data true)
    /\ openedURLs alerts = [] /\ navigations alerts = [] /\ userQueries alerts = [].
Proof.
  intros Hdb db Hno. subst db.
  unfold handleGotoLocation. rewrite Hdb. simpl.
  fold (matchedLink env (database (operator sdb)) serverUrl location).
  assert (forall ok : bool, exists alerts : list Event,
    (if ok then ([] : list Event) else
       [EvAlert
          (formatMessage intl
             {| messageId := js "mobile.server_link.error.title";
                defaultMessage := js "Link Error" |} [])
          (formatMessage intl
             {| messageId := js "mobile.server_link.error.text";
                defaultMessage := js "The link could not be found on this server." |} [])])
    = alerts /\ openedURLs alerts = [] /\ navigations alerts = []
      /\ userQueries alerts = []) as Halerts.
  { intros [|]; eexists; repeat split. }
  destruct (Halerts (canOpenURL env location)) as (alerts & Halert & Hopen & Hnav & Huser).
  exists alerts. split; [|auto].
  destruct (matchedLink env _ serverUrl location) as [m|] eqn:Hm.
  - destruct Hno as [Hno|Hno]; [discriminate|].
    unfold ifTruthy at 1.
    destruct (linkServerUrl env (Some m)) as [link|]; simpl in Hno.
    + change (truthy link = false) in Hno. rewrite Hno. act_steps. simpl.
      rewrite <- Halert. destruct (canOpenURL env location); reflexivity.
    + act_steps. simpl.
      rewrite <- Halert. destruct (canOpenURL env location); reflexivity.
  - act_steps. simpl.
    rewrite <- Halert. destruct (canOpenURL env location); reflexivity.
Qed.

Lemma handleGotoLocation_matched serverUrl intl location sdb m link :
  serverDatabases env !! serverUrl = Some sdb ->
  let db := database (operator sdb) in
  matchedLink env db serverUrl location = Some m ->
  linkServerUrl env (Some m) = Some link ->
  truthy link = true ->
  let outcome :=
    dispatched env db intl location link (linkType m) (default DeepLink.empty (data m)) in
  run (handleGotoLocation env serverUrl intl location)
  = (EvGetConfig db :: outcome.1, Data outcome.2).
Proof.
  intros Hdb db Hm Hlink Htruthy outcome. subst db outcome.
  unfold handleGotoLocation. rewrite Hdb. simpl.
  fold (matchedLink env (database (operator sdb)) serverUrl location).
  rewrite Hm, Hlink. unfold ifTruthy at 1. rewrite Htruthy.
  unfold dispatched.
  destruct (linkType m); act_steps; unfold ifTruthy; simpl.
  - reflexivity.
  - reflexivity.
  - destruct (DeepLink.userName _) as [[|c u]|]; simpl; try reflexivity.
    destruct (bool_decide _); simpl;
      destruct (queryUsersByUsername env _ _) as [|user users]; reflexivity.
  - destruct (DeepLink.channelId _) as [[|c i]|]; reflexivity.
  - reflexivity.
Qed.


(** *** [executeAppCommand] *)

Lemma executeAppCommand_quiet serverUrl intl parser msg args :
  let app := executeAppCommand ResponseTypes env serverUrl intl parser msg args in
  sentToBackend (trace app) = []
  /\ Forall (fun e => forall a, eventArgs e = Some a -> a = args) (trace app).
Proof.
  pose proof (fun l => proj1 (handleGotoLocation_quiet serverUrl intl l)) as Hsent.
  pose proof (fun l => proj2 (proj2 (handleGotoLocation_quiet serverUrl intl l))) as Hargs.
  assert (forall t, Forall (fun e => eventArgs e = None) t ->
                    Forall (fun e => forall a, eventArgs e = Some a -> a = args) t) as Hnone.
  { intros t Ht. eapply Forall_impl; [exact Ht|]. intros e -> a. discriminate. }
  unfold executeAppCommand. act_unfold. simpl.
  repeat (case_match; simplify_eq/=); rewrite ?app_nil_r; split;
    repeat first [ apply Hsent | apply Hnone, Hargs | reflexivity
                 | apply Forall_cons; split; [simpl; congruence|]
                 | apply Forall_nil_2 ].
Qed.

Lemma executeAppCommand_starts serverUrl intl parser msg args :
  exists rest,
    trace (executeAppCommand ResponseTypes env serverUrl intl parser msg args)
    = EvComposeCommandSubmitCall parser msg :: rest.
Proof.
  unfold executeAppCommand. act_unfold. simpl.
  repeat (case_match; simplify_eq/=); eauto.
Qed.

Lemma executeAppCommand_response serverUrl intl parser msg args c callResp :
  creq (composeCommandSubmitCall env parser msg) = Some c ->
  doAppSubmit env serverUrl c = inr callResp ->
  result (executeAppCommand ResponseTypes env serverUrl intl parser msg args)
  = if eqb (type callResp) (OK ResponseTypes)
       || eqb (type callResp) (FORM ResponseTypes)
       || eqb (type callResp) (NAVIGATE ResponseTypes)
    then Data EmptyObject
    else Error (ErrorMessage (Some
           (formatMessage intl unknownTypeMessage [(js "type", type callResp)]))).
Proof.
  intros Hc Hres. unfold executeAppCommand. act_unfold. simpl.
  rewrite Hc, Hres.
  repeat (case_match; simplify_eq/=); reflexivity.
Qed.

Lemma executeAppCommand_shape serverUrl intl parser msg args :
  let r := result (executeAppCommand ResponseTypes env serverUrl intl parser msg args) in
  r = Data EmptyObject \/ exists errMessage, r = Error (ErrorMessage errMessage).
Proof.
  unfold executeAppCommand. act_unfold. simpl.
  repeat (case_match; simplify_eq/=); eauto.
Qed.

(** *** [executeCommand] *)

Lemma executeCommand_missing_database serverUrl intl message channelId rootId :
  serverDatabases env !! serverUrl = None ->
  run (executeCommand toLowerCase ResponseTypes env serverUrl intl message channelId rootId)
  = ([], Error (ErrorString (serverUrl ++ js " database not found"))).
Proof.
  intros Hdb. unfold executeCommand. rewrite Hdb. reflexivity.
Qed.

Lemma executeCommand_no_client serverUrl intl message channelId rootId sdb error :
  serverDatabases env !! serverUrl = Some sdb ->
  getClient env serverUrl = inl error ->
  run (executeCommand toLowerCase ResponseTypes env serverUrl intl message channelId rootId)
  = ([EvGetClient serverUrl], Error (ErrorClient error)).
Proof.
  intros Hdb Hclient. unfold executeCommand. rewrite Hdb. simpl. rewrite Hclient.
  reflexivity.
Qed.

Lemma executeCommand_app_path serverUrl intl message channelId rootId sdb client :
  serverDatabases env !! serverUrl = Some sdb ->
  getClient env serverUrl = inr client ->
  let db := database (operator sdb) in
  isAppPath env db serverUrl message channelId rootId = true ->
  let app := executeAppCommand ResponseTypes env serverUrl intl
               (contextParser env db serverUrl channelId rootId) message
               (contextArgs env db channelId rootId) in
  run (executeCommand toLowerCase ResponseTypes env serverUrl intl message channelId rootId)
  = (contextEvents env db serverUrl channelId ++ trace app, result app).
Proof.
  intros Hdb Hclient db Happ app. subst app db.
  unfold isAppPath, contextParser, contextArgs, contextTeamId, contextEvents in *.
  apply andb_true_iff in Happ as [Henabled Hcmd].
  unfold executeCommand. rewrite Hdb. simpl. rewrite Hclient, Henabled.
  act_unfold.
  destruct (getChannelById env (database (operator sdb)) channelId) as [channel|]; simpl in *.
  - destruct (truthy (teamId channel)); simpl; rewrite Hcmd; simpl;
      rewrite ?app_nil_r; reflexivity.
  - rewrite Hcmd. simpl. rewrite ?app_nil_r. reflexivity.
Qed.

Lemma executeCommand_backend_path serverUrl intl message channelId rootId sdb client :
  serverDatabases env !! serverUrl = Some sdb ->
  getClient env serverUrl = inr client ->
  let db := database (operator sdb) in
  isAppPath env db serverUrl message channelId rootId = false ->
  let msg := recompose toLowerCase message in
  let args := contextArgs env db channelId rootId in
  run (executeCommand toLowerCase ResponseTypes env serverUrl intl message channelId rootId)
  = match clientExecuteCommand env client msg args with
    | inl error =>
        (contextEvents env db serverUrl channelId ++ [EvClientExecuteCommand client msg args],
         Error (ErrorClient error))
    | inr data =>
        (contextEvents env db serverUrl channelId
           ++ EvClientExecuteCommand client msg args :: triggerEvents env serverUrl data,
         Data (BackendResponse data))
    end.
Proof.
  intros Hdb Hclient db Happ msg args. subst msg args db.
  unfold isAppPath, contextParser, contextArgs, contextTeamId, contextEvents, triggerEvents in *.
  unfold executeCommand. rewrite Hdb. simpl. rewrite Hclient.
  act_unfold.
  repeat (case_match; simplify_eq/=); try reflexivity; try discriminate.
Qed.

Lemma contextEvents_quiet db serverUrl channelId :
  sentToBackend (contextEvents env db serverUrl channelId) = []
  /\ appPipelineCalls (contextEvents env db serverUrl channelId) = []
  /\ Forall (fun e => eventArgs e = None) (contextEvents env db serverUrl channelId).
Proof.
  unfold contextEvents. repeat case_match; simpl; repeat split; auto.
Qed.

Lemma triggerEvents_quiet serverUrl data :
  sentToBackend (triggerEvents env serverUrl data) = []
  /\ appPipelineCalls (triggerEvents env serverUrl data) = []
  /\ Forall (fun e => eventArgs e = None) (triggerEvents env serverUrl data).
Proof.
  unfold triggerEvents. repeat case_match; simpl; repeat split; auto.
Qed.


(** The message sent on the backend path, split at the first space. *)
Lemma recompose_split message :
  exists cmd rest,
    filterEmDashForCommand message = cmd ++ rest
    /\ (SPACE ∉ cmd)
    /\ (rest = [] \/ exists r, rest = SPACE :: r)
    /\ recompose toLowerCase message
       = if eqb (toLowerCase cmd) (js "/code")
         then toLowerCase cmd ++ js " " ++ trimEnd rest
         else toLowerCase cmd ++ js " " ++ trim rest.
Proof.
  unfold recompose.
  destruct (first_space_split (filterEmDashForCommand message)) as (Hmsg & Hcmd & Hrest).
  simpl in Hmsg, Hcmd, Hrest.
  eexists _, _. split; [exact Hmsg|]. split; [exact Hcmd|]. split; [exact Hrest|].
  reflexivity.
Qed.

Lemma executeCommand_backend_observed serverUrl intl message channelId rootId sdb client :
  serverDatabases env !! serverUrl = Some sdb ->
  getClient env serverUrl = inr client ->
  let db := database (operator sdb) in
  isAppPath env db serverUrl message channelId rootId = false ->
  let t := trace (executeCommand toLowerCase ResponseTypes env serverUrl intl
                    message channelId rootId) in
  sentToBackend t = [recompose toLowerCase message]
  /\ appPipelineCalls t = []
  /\ Forall (fun e => forall a, eventArgs e = Some a -> a = contextArgs env db channelId rootId) t.
Proof.
  intros Hdb Hclient db Happ t. subst t. unfold trace.
  rewrite (executeCommand_backend_path _ intl _ _ _ _ _ Hdb Hclient Happ).
  destruct (contextEvents_quiet db serverUrl channelId) as (Hs & Ha & Hn).
  subst db.
  assert (forall l, Forall (fun e => eventArgs e = None) l ->
            Forall (fun e => forall a, eventArgs e = Some a
              -> a = contextArgs env (database (operator sdb)) channelId rootId) l) as Hnone.
  { intros l Hl. eapply Forall_impl; [exact Hl|]. intros e -> a. discriminate. }
  unfold sentToBackend, appPipelineCalls in *.
  destruct (clientExecuteCommand env client _ _) as [error|data]; cbn [fst snd run].
  - split; [|split].
    + rewrite omap_app, Hs. reflexivity.
    + rewrite List.filter_app, Ha. reflexivity.
    + apply Forall_app_2; [apply Hnone, Hn|].
      apply Forall_cons. split; [simpl; congruence|apply Forall_nil_2].
  - destruct (triggerEvents_quiet serverUrl data) as (Hs' & Ha' & Hn').
    unfold sentToBackend, appPipelineCalls in *.
    split; [|split].
    + rewrite omap_app, Hs. cbn -[triggerEvents]. rewrite Hs'. reflexivity.
    + rewrite List.filter_app, Ha. cbn -[triggerEvents]. rewrite Ha'. reflexivity.
    + apply Forall_app_2; [apply Hnone, Hn|].
      apply Forall_cons. split; [simpl; congruence|apply Hnone, Hn'].
Qed.

Lemma executeCommand_app_observed serverUrl intl message channelId rootId sdb client :
  serverDatabases env !! serverUrl = Some sdb ->
  getClient env serverUrl = inr client ->
  let db := database (operator sdb) in
  isAppPath env db serverUrl message channelId rootId = true ->
  let t := trace (executeCommand toLowerCase ResponseTypes env serverUrl intl
                    message channelId rootId) in
  sentToBackend t = []
  /\ Forall (fun e => forall a, eventArgs e = Some a -> a = contextArgs env db channelId rootId) t.
Proof.
  intros Hdb Hclient db Happ t. subst t. unfold trace at 1 2.
  rewrite (executeCommand_app_path _ intl _ _ _ _ _ Hdb Hclient Happ).
  destruct (contextEvents_quiet db serverUrl channelId) as (Hs & _ & Hn).
  destruct (executeAppCommand_quiet serverUrl intl
              (contextParser env db serverUrl channelId rootId) message
              (contextArgs env db channelId rootId)) as (Hs' & Hn').
  subst db. cbn [fst snd run]. unfold sentToBackend in *. rewrite omap_app, Hs, Hs'.
  split; [reflexivity|].
  apply Forall_app_2; [|exact Hn'].
  eapply Forall_impl; [exact Hn|]. intros e -> a. discriminate.
Qed.

(** Whatever the path, at most the recomposed message reaches the backend. *)
Lemma executeCommand_sent serverUrl intl message channelId rootId :
  let t := trace (executeCommand toLowerCase ResponseTypes env serverUrl intl
                    message channelId rootId) in
  sentToBackend t = [] \/ sentToBackend t = [recompose toLowerCase message].
Proof.
  simpl.
  destruct (serverDatabases env !! serverUrl) as [sdb|] eqn:Hdb.
  - destruct (getClient env serverUrl) as [error|client] eqn:Hclient.
    + left. unfold trace.
      now rewrite (executeCommand_no_client _ intl message channelId rootId _ _ Hdb Hclient).
    + destruct (isAppPath env (database (operator sdb)) serverUrl message channelId rootId)
        eqn:Happ.
      * left. apply (executeCommand_app_observed _ intl _ _ _ _ _ Hdb Hclient Happ).
      * right. apply (executeCommand_backend_observed _ intl _ _ _ _ _ Hdb Hclient Happ).
  - left. unfold trace.
    now rewrite (executeCommand_missing_database _ intl message channelId rootId Hdb).
Qed.


Lemma teamQueries_quiet serverUrl intl location parser msg args data :
  teamQueries (trace (handleGotoLocation env serverUrl intl location)) = []
  /\ teamQueries (trace (executeAppCommand ResponseTypes env serverUrl intl parser msg args)) = []
  /\ teamQueries (triggerEvents env serverUrl data) = [].
Proof.
  assert (forall l, teamQueries (trace (handleGotoLocation env serverUrl intl l)) = []) as Hgoto.
  { intros l. unfold handleGotoLocation, linkServerUrl. act_unfold.
    repeat (case_match; simplify_eq/=); reflexivity. }
  split; [apply Hgoto|]. split.
  - unfold executeAppCommand. act_unfold. simpl.
    repeat (case_match; simplify_eq/=); rewrite ?app_nil_r; first [apply Hgoto|reflexivity].
  - unfold triggerEvents. repeat case_match; reflexivity.
Qed.

End Traces.

Lemma toLowerCaseAscii_no_em_dash (s : list N) :
  Js.EM_DASH ∉ s -> Js.EM_DASH ∉ Js.toLowerCaseAscii s.
Proof.
  intros Hs Hin. apply Hs. unfold Js.toLowerCaseAscii in Hin.
  apply list_elem_of_In, in_map_iff in Hin as (c & Hc & Hin).
  apply list_elem_of_In. unfold Js.asciiLower, Js.EM_DASH in *.
  destruct (N.leb_spec 0x41 c), (N.leb_spec c 0x5A); simpl in Hc; subst; try assumption; lia.
Qed.

(** ** The claims about [executeCommand] *)

(** C4. When the database handle of the server is missing from the registry,
    [executeCommand] and [handleGotoLocation] each return [{error}] with a
    message that contains the server URL, and their trace is empty: before
    returning they neither asked for the network client nor made any query,
    request or screen change. *)
Theorem missing_database_fails_fast toLowerCase ResponseTypes env serverUrl intl
    message channelId rootId location :
  serverDatabases env !! serverUrl = None ->
  (exists text,
     run (executeCommand toLowerCase ResponseTypes env serverUrl intl message channelId rootId)
     = ([], Error (ErrorString text))
     /\ Js.includes text serverUrl)
  /\ (exists text,
       run (handleGotoLocation env serverUrl intl location) = ([], Error text)
       /\ Js.includes text serverUrl).
Proof.
  intros Hdb. split; eexists; (split; [|exists [], (Js.js " database not found"); reflexivity]).
  - apply executeCommand_missing_database, Hdb.
  - apply handleGotoLocation_missing_database, Hdb.
Qed.

Lemma missing_database_witness :
  serverDatabases Sample.plain !! Js.js "https://b.example" = None
  /\ (exists text,
       run (executeCommand Js.toLowerCaseAscii Sample.types Sample.plain
              (Js.js "https://b.example") Sample.intl (Js.js "/away") (Js.js "ch1") None)
       = ([], Error (ErrorString text))
       /\ Js.includes text (Js.js "https://b.example"))
  /\ (exists text,
       run (handleGotoLocation Sample.plain (Js.js "https://b.example") Sample.intl
              (Js.js "https://a.example/team/channels/town-square"))
       = ([], Error text)
       /\ Js.includes text (Js.js "https://b.example")).
Proof.
  split; [vm_compute; reflexivity|].
  apply missing_database_fails_fast. vm_compute. reflexivity.
Defined.

(** C1, as the code has it.  On the non-app path exactly one message
    reaches the backend, and its argument segment is cut as [argumentTrimmed]
    says: after [/code] the leading whitespace of the remainder is kept and
    its trailing whitespace is stripped; after any other command both are
    stripped. *)
Theorem code_argument_keeps_leading_whitespace toLowerCase ResponseTypes env serverUrl intl
    message channelId rootId sdb client :
  serverDatabases env !! serverUrl = Some sdb ->
  getClient env serverUrl = inr client ->
  isAppPath env (database (operator sdb)) serverUrl message channelId rootId = false ->
  exists sent,
    sentToBackend (trace (executeCommand toLowerCase ResponseTypes env serverUrl intl
                            message channelId rootId)) = [sent]
    /\ argumentTrimmed toLowerCase message sent.
Proof.
  intros Hdb Hclient Happ. exists (recompose toLowerCase message). split.
  - apply (executeCommand_backend_observed _ _ _ _ intl _ _ _ _ _ Hdb Hclient Happ).
  - destruct (recompose_split toLowerCase message) as (cmd & rest & Hsplit & Hcmd & Hrest & Hsent).
    exists cmd, rest. repeat split; try assumption.
    + intros Hcode. apply eqb_eq in Hcode as Heqb. rewrite Heqb, Hcode in Hsent.
      destruct (trimEnd_split rest) as (ws & Hws & Hall & Hend).
      exists (Js.trimEnd rest), ws. auto.
    + intros Hother. apply eqb_neq in Hother. rewrite Hother in Hsent.
      destruct (trim_split rest) as (ws1 & ws2 & Hws & Hall1 & Hall2 & Hstart & Hend).
      exists ws1, (Js.trim rest), ws2. auto 7.
Qed.

Lemma code_argument_witness :
  serverDatabases Sample.plain !! Sample.serverUrl
  = Some {| operator := {| database := Sample.db |} |}
  /\ getClient Sample.plain Sample.serverUrl = inr Sample.client
  /\ isAppPath Sample.plain Sample.db Sample.serverUrl (Js.js "/code   x = 1  ")
       (Js.js "ch1") None = false
  /\ exists sent,
       sentToBackend (trace (executeCommand Js.toLowerCaseAscii Sample.types Sample.plain
                               Sample.serverUrl Sample.intl (Js.js "/code   x = 1  ")
                               (Js.js "ch1") None)) = [sent]
       /\ argumentTrimmed Js.toLowerCaseAscii (Js.js "/code   x = 1  ") sent.
Proof.
  split; [vm_compute; reflexivity|]. split; [reflexivity|]. split; [reflexivity|].
  apply (code_argument_keeps_leading_whitespace Js.toLowerCaseAscii Sample.types Sample.plain
           Sample.serverUrl Sample.intl (Js.js "/code   x = 1  ") (Js.js "ch1") None
           {| operator := {| database := Sample.db |} |} Sample.client);
    vm_compute; reflexivity.
Defined.

(** C1, as the claim states it, fails: for [/code arg] followed by two
    spaces the message sent is [/code], two spaces, [arg]: the trailing
    spaces are gone. *)
Lemma code_trailing_whitespace_is_stripped :
  sentToBackend (trace (executeCommand Js.toLowerCaseAscii Sample.types Sample.plain
                          Sample.serverUrl Sample.intl (Js.js "/code arg  ")
                          (Js.js "ch1") None))
  = [Js.js "/code  arg"]
  /\ endsWithWhiteSpace (Js.js "/code arg  ") = true
  /\ endsWithWhiteSpace (Js.js "/code  arg") = false.
Proof.
  repeat split; vm_compute; reflexivity.
Qed.

(** C8. Provided lower-casing introduces no em-dash.  The filter replaces
    every em-dash of the message by two hyphens and leaves none.  On the
    non-app path exactly one message is sent, and it is recomposed from the
    filtered message, not from the message as typed: the filtered text
    before its first space, lower-cased, one space, and the filtered text
    from that space on, trimmed; so it contains no em-dash.  On no path
    does a message with an em-dash reach the backend. *)
Theorem sent_message_has_no_em_dash toLowerCase ResponseTypes env serverUrl intl
    message channelId rootId :
  (forall s, Js.EM_DASH ∉ s -> Js.EM_DASH ∉ toLowerCase s) ->
  filterEmDashForCommand message
  = concat (List.map (fun c => if c =? Js.EM_DASH then Js.js "--" else [c]) message)
  /\ (Js.EM_DASH ∉ filterEmDashForCommand message)
  /\ (Js.EM_DASH ∉ recompose toLowerCase message)
  /\ Forall (fun sent => Js.EM_DASH ∉ sent)
       (sentToBackend (trace (executeCommand toLowerCase ResponseTypes env serverUrl intl
                                message channelId rootId)))
  /\ (forall sdb client,
        serverDatabases env !! serverUrl = Some sdb ->
        getClient env serverUrl = inr client ->
        isAppPath env (database (operator sdb)) serverUrl message channelId rootId = false ->
        exists sent,
          sentToBackend (trace (executeCommand toLowerCase ResponseTypes env serverUrl intl
                                  message channelId rootId)) = [sent]
          /\ recomposedFrom toLowerCase (filterEmDashForCommand message) sent
          /\ (Js.EM_DASH ∉ sent)).
Proof.
  intros Hlower.
  assert (Js.EM_DASH ∉ filterEmDashForCommand message) as Hfilter.
  { apply replaceAll_removes. vm_compute. intros H.
    repeat (apply elem_of_cons in H as [H|H]; [discriminate|]).
    apply elem_of_nil in H. exact H. }
  assert (Js.EM_DASH ∉ recompose toLowerCase message) as Hsent.
  { destruct (recompose_split toLowerCase message) as (cmd & rest & Hsplit & _ & _ & ->).
    rewrite Hsplit in Hfilter. apply not_elem_of_app in Hfilter as [Hcmd Hrest].
    assert (Js.EM_DASH ∉ Js.js " ") as Hspace.
    { intros H. apply list_elem_of_singleton in H. discriminate. }
    destruct (Js.eqb _ _); rewrite !not_elem_of_app; repeat split; auto.
    - intros H. apply Hrest. eapply elem_of_trimEnd, H.
    - intros H. apply Hrest. eapply elem_of_trim, H. }
  split; [apply replaceAll_concat_map|]. split; [exact Hfilter|]. split; [exact Hsent|].
  split.
  - destruct (executeCommand_sent toLowerCase ResponseTypes env serverUrl intl
                message channelId rootId) as [-> | ->].
    + apply Forall_nil_2.
    + apply Forall_cons. split; [exact Hsent|apply Forall_nil_2].
  - intros sdb client Hdb Hclient Happ. exists (recompose toLowerCase message).
    split; [|split; [|exact Hsent]].
    + apply (executeCommand_backend_observed toLowerCase ResponseTypes env serverUrl intl
               message channelId rootId sdb client Hdb Hclient Happ).
    + destruct (recompose_split toLowerCase message)
        as (cmd & rest & Hsplit & Hcmd & Hrest & Hre).
      exists cmd, rest. split; [exact Hsplit|]. split; [exact Hcmd|]. split; [exact Hrest|].
      rewrite Hre. destruct (Js.eqb _ _); reflexivity.
Qed.

Lemma sent_message_witness :
  (forall s, Js.EM_DASH ∉ s -> Js.EM_DASH ∉ Js.toLowerCaseAscii s)
  /\ serverDatabases Sample.plain !! Sample.serverUrl
     = Some {| operator := {| database := Sample.db |} |}
  /\ getClient Sample.plain Sample.serverUrl = inr Sample.client
  /\ isAppPath Sample.plain Sample.db Sample.serverUrl Sample.dashed (Js.js "ch1") None = false
  /\ exists sent,
       sentToBackend (trace (executeCommand Js.toLowerCaseAscii Sample.types Sample.plain
                               Sample.serverUrl Sample.intl Sample.dashed
                               (Js.js "ch1") None)) = [sent]
       /\ recomposedFrom Js.toLowerCaseAscii (filterEmDashForCommand Sample.dashed) sent
       /\ (Js.EM_DASH ∉ sent).
Proof.
  split; [exact toLowerCaseAscii_no_em_dash|].
  split; [vm_compute; reflexivity|]. split; [reflexivity|]. split; [reflexivity|].
  apply (proj2 (proj2 (proj2 (proj2
           (sent_message_has_no_em_dash Js.toLowerCaseAscii Sample.types Sample.plain
              Sample.serverUrl Sample.intl Sample.dashed (Js.js "ch1") None
              toLowerCaseAscii_no_em_dash))))
           {| operator := {| database := Sample.db |} |} Sample.client);
    [vm_compute; reflexivity|reflexivity|reflexivity].
Defined.

Example dashed_message_sent :
  sentToBackend (trace (executeCommand Js.toLowerCaseAscii Sample.types Sample.plain
                          Sample.serverUrl Sample.intl Sample.dashed (Js.js "ch1") None))
  = [Js.js "/echo a--b"].
Proof. vm_compute. reflexivity. Qed.

(** C2. Once the database and the client are there, the classifier decides:
    if the app subsystem is enabled and its parser recognises the message,
    nothing is sent to the backend executor and the outcome is the outcome of
    [executeAppCommand]; otherwise the app pipeline is not called and the
    backend receives the recomposed message.  So no invocation does both. *)
Theorem command_paths_are_exclusive toLowerCase ResponseTypes env serverUrl intl
    message channelId rootId sdb client :
  serverDatabases env !! serverUrl = Some sdb ->
  getClient env serverUrl = inr client ->
  let db := database (operator sdb) in
  let command :=
    executeCommand toLowerCase ResponseTypes env serverUrl intl message channelId rootId in
  let app :=
    executeAppCommand ResponseTypes env serverUrl intl
      (contextParser env db serverUrl channelId rootId) message
      (contextArgs env db channelId rootId) in
  (isAppPath env db serverUrl message channelId rootId = true ->
     sentToBackend (trace command) = []
     /\ result command = result app
     /\ trace command = contextEvents env db serverUrl channelId ++ trace app
     /\ appPipelineCalls (trace command) <> [])
  /\ (isAppPath env db serverUrl message channelId rootId = false ->
      appPipelineCalls (trace command) = []
      /\ sentToBackend (trace command) = [recompose toLowerCase message])
  /\ (sentToBackend (trace command) = [] \/ appPipelineCalls (trace command) = []).
Proof.
  intros Hdb Hclient db command app.
  assert (isAppPath env db serverUrl message channelId rootId = true ->
          sentToBackend (trace command) = []) as Happ_sent.
  { intros Happ.
    apply (executeCommand_app_observed toLowerCase ResponseTypes _ _ intl _ _ _ _ _
             Hdb Hclient Happ). }
  assert (isAppPath env db serverUrl message channelId rootId = false ->
          appPipelineCalls (trace command) = []
          /\ sentToBackend (trace command) = [recompose toLowerCase message]) as Hbackend.
  { intros Happ.
    destruct (executeCommand_backend_observed toLowerCase ResponseTypes _ _ intl _ _ _ _ _
                Hdb Hclient Happ) as (Hsent & Hcalls & _).
    split; assumption. }
  split; [|split].
  - intros Happ. split; [auto|].
    pose proof (executeCommand_app_path toLowerCase ResponseTypes env serverUrl intl
                  message channelId rootId sdb client Hdb Hclient Happ) as Hrun.
    fold db command app in Hrun.
    assert (trace command = contextEvents env db serverUrl channelId ++ trace app) as Htrace.
    { unfold trace at 1. rewrite Hrun. reflexivity. }
    split; [unfold result at 1; rewrite Hrun; reflexivity|]. split; [exact Htrace|].
    rewrite Htrace. unfold appPipelineCalls. rewrite List.filter_app.
    destruct (executeAppCommand_starts ResponseTypes env serverUrl intl
                (contextParser env db serverUrl channelId rootId) message
                (contextArgs env db channelId rootId)) as (rest & Hstart).
    fold app in Hstart. rewrite Hstart.
    intros Hnil. apply app_eq_nil in Hnil as [_ Hnil]. simpl in Hnil. discriminate.
  - exact Hbackend.
  - destruct (isAppPath env db serverUrl message channelId rootId).
    + left. auto.
    + right. apply Hbackend. reflexivity.
Qed.

Lemma command_paths_witness :
  serverDatabases Sample.withApps !! Sample.serverUrl
  = Some {| operator := {| database := Sample.db |} |}
  /\ getClient Sample.withApps Sample.serverUrl = inr Sample.client
  /\ isAppPath Sample.withApps Sample.db Sample.serverUrl (Js.js "/jira issue") (Js.js "ch1") None
     = true
  /\ sentToBackend
       (trace (executeCommand Js.toLowerCaseAscii Sample.types Sample.withApps Sample.serverUrl
                 Sample.intl (Js.js "/jira issue") (Js.js "ch1") None)) = []
  /\ isAppPath Sample.plain Sample.db Sample.serverUrl (Js.js "/jira issue") (Js.js "ch1") None
     = false
  /\ appPipelineCalls
       (trace (executeCommand Js.toLowerCaseAscii Sample.types Sample.plain Sample.serverUrl
                 Sample.intl (Js.js "/jira issue") (Js.js "ch1") None)) = [].
Proof.
  split; [vm_compute; reflexivity|]. split; [reflexivity|]. split; [reflexivity|].
  split.
  - apply (command_paths_are_exclusive Js.toLowerCaseAscii Sample.types Sample.withApps
             Sample.serverUrl Sample.intl (Js.js "/jira issue") (Js.js "ch1") None
             {| operator := {| database := Sample.db |} |} Sample.client);
      vm_compute; reflexivity.
  - split; [reflexivity|].
    apply (command_paths_are_exclusive Js.toLowerCaseAscii Sample.types Sample.plain
             Sample.serverUrl Sample.intl (Js.js "/jira issue") (Js.js "ch1") None
             {| operator := {| database := Sample.db |} |} Sample.client);
      vm_compute; reflexivity.
Defined.

Lemma executeCommand_teamQueries toLowerCase ResponseTypes env serverUrl intl
    message channelId rootId sdb client :
  serverDatabases env !! serverUrl = Some sdb ->
  getClient env serverUrl = inr client ->
  teamQueries (trace (executeCommand toLowerCase ResponseTypes env serverUrl intl
                        message channelId rootId))
  = teamQueries (contextEvents env (database (operator sdb)) serverUrl channelId).
Proof.
  intros Hdb Hclient. unfold trace at 1.
  destruct (isAppPath env (database (operator sdb)) serverUrl message channelId rootId)
    eqn:Happ.
  - rewrite (executeCommand_app_path _ _ _ _ intl _ _ _ _ _ Hdb Hclient Happ).
    cbn [fst]. unfold teamQueries at 1. rewrite omap_app. fold (teamQueries).
    destruct (teamQueries_quiet ResponseTypes env serverUrl intl []
                (contextParser env (database (operator sdb)) serverUrl channelId rootId)
                message (contextArgs env (database (operator sdb)) channelId rootId) None)
      as (_ & Happ_quiet & _).
    unfold teamQueries in *. rewrite Happ_quiet. apply app_nil_r.
  - rewrite (executeCommand_backend_path _ _ _ _ intl _ _ _ _ _ Hdb Hclient Happ).
    destruct (clientExecuteCommand env client _ _) as [error|data]; cbn [fst];
      unfold teamQueries at 1; rewrite omap_app.
    + apply app_nil_r.
    + destruct (teamQueries_quiet ResponseTypes env serverUrl intl []
                  (contextParser env (database (operator sdb)) serverUrl channelId rootId)
                  message (contextArgs env (database (operator sdb)) channelId rootId) data)
        as (_ & _ & Htrigger).
      unfold teamQueries in *. cbn -[triggerEvents]. rewrite Htrigger. apply app_nil_r.
Qed.

(** C7, as the code has it.  The team id of the command context is the team
    id of the channel when the channel is found and that team id is not
    empty; when the channel is absent, or found with an empty team id, the
    current team id is queried and used. *)
Theorem command_context_team_id toLowerCase ResponseTypes env serverUrl intl
    message channelId rootId sdb client :
  serverDatabases env !! serverUrl = Some sdb ->
  getClient env serverUrl = inr client ->
  let db := database (operator sdb) in
  let t := trace (executeCommand toLowerCase ResponseTypes env serverUrl intl
                    message channelId rootId) in
  (forall channel,
     getChannelById env db channelId = Some channel -> teamId channel <> [] ->
     Forall (fun e => forall args, eventArgs e = Some args -> team_id args = teamId channel) t
     /\ teamQueries t = [])
  /\ (getChannelById env db channelId = None
      \/ (exists channel, getChannelById env db channelId = Some channel /\ teamId channel = []) ->
      Forall (fun e => forall args, eventArgs e = Some args
                                    -> team_id args = getCurrentTeamId env db) t
      /\ teamQueries t = [db])
  /\ (isAppPath env db serverUrl message channelId rootId = false ->
      exists args, EvClientExecuteCommand client (recompose toLowerCase message) args ∈ t).
Proof.
  intros Hdb Hclient db t.
  assert (Forall (fun e => forall args, eventArgs e = Some args
                   -> args = contextArgs env db channelId rootId) t) as Hargs.
  { destruct (isAppPath env db serverUrl message channelId rootId) eqn:Happ.
    - apply (executeCommand_app_observed toLowerCase ResponseTypes _ _ intl _ _ _ _ _
               Hdb Hclient Happ).
    - apply (executeCommand_backend_observed toLowerCase ResponseTypes _ _ intl _ _ _ _ _
               Hdb Hclient Happ). }
  pose proof (executeCommand_teamQueries toLowerCase ResponseTypes env serverUrl intl
                message channelId rootId sdb client Hdb Hclient) as Hqueries.
  fold db t in Hqueries.
  split; [|split].
  - intros channel Hchannel Hteam. split.
    + eapply Forall_impl; [exact Hargs|]. intros e He args Heq.
      rewrite (He args Heq). simpl. unfold contextTeamId. rewrite Hchannel.
      destruct (teamId channel); [congruence|reflexivity].
    + rewrite Hqueries. unfold contextEvents. rewrite Hchannel.
      destruct (teamId channel); [congruence|reflexivity].
  - intros Hnone. split.
    + eapply Forall_impl; [exact Hargs|]. intros e He args Heq.
      rewrite (He args Heq). simpl. unfold contextTeamId.
      destruct Hnone as [->|(channel & -> & Hteam)]; [reflexivity|].
      rewrite Hteam. reflexivity.
    + rewrite Hqueries. unfold contextEvents.
      destruct Hnone as [->|(channel & -> & Hteam)]; [reflexivity|].
      rewrite Hteam. reflexivity.
  - intros Happ. exists (contextArgs env db channelId rootId). subst t. unfold trace.
    rewrite (executeCommand_backend_path _ _ _ _ intl _ _ _ _ _ Hdb Hclient Happ).
    destruct (clientExecuteCommand env client _ _); cbn [fst];
      apply elem_of_app; right; apply elem_of_cons; left; reflexivity.
Qed.

Lemma command_context_witness :
  serverDatabases Sample.teamless !! Sample.serverUrl
  = Some {| operator := {| database := Sample.db |} |}
  /\ getClient Sample.teamless Sample.serverUrl = inr Sample.client
  /\ (getChannelById Sample.teamless Sample.db (Js.js "ch1") = None
      \/ exists channel,
           getChannelById Sample.teamless Sample.db (Js.js "ch1") = Some channel
           /\ teamId channel = [])
  /\ Forall (fun e => forall args, eventArgs e = Some args
                                   -> team_id args = getCurrentTeamId Sample.teamless Sample.db)
       (trace (executeCommand Js.toLowerCaseAscii Sample.types Sample.teamless Sample.serverUrl
                 Sample.intl (Js.js "/away") (Js.js "ch1") None))
  /\ teamQueries
       (trace (executeCommand Js.toLowerCaseAscii Sample.types Sample.teamless Sample.serverUrl
                 Sample.intl (Js.js "/away") (Js.js "ch1") None))
     = [Sample.db].
Proof.
  assert (getChannelById Sample.teamless Sample.db (Js.js "ch1") = None
          \/ exists channel,
               getChannelById Sample.teamless Sample.db (Js.js "ch1") = Some channel
               /\ teamId channel = []) as Hchannel.
  { right. exists Sample.directChannel. split; reflexivity. }
  split; [vm_compute; reflexivity|]. split; [reflexivity|]. split; [exact Hchannel|].
  apply (command_context_team_id Js.toLowerCaseAscii Sample.types Sample.teamless
           Sample.serverUrl Sample.intl (Js.js "/away") (Js.js "ch1") None
           {| operator := {| database := Sample.db |} |} Sample.client);
    [vm_compute; reflexivity|reflexivity|exact Hchannel].
Defined.

(** C7, as the claim states it, fails: the lookup of [ch1] succeeds with a
    channel whose team id is empty, and the context sent to the backend
    carries the current team id [team1], not the channel's. *)
Lemma teamless_channel_uses_current_team :
  getChannelById Sample.teamless Sample.db (Js.js "ch1") = Some Sample.directChannel
  /\ teamId Sample.directChannel = []
  /\ omap eventArgs
       (trace (executeCommand Js.toLowerCaseAscii Sample.types Sample.teamless Sample.serverUrl
                 Sample.intl (Js.js "/away") (Js.js "ch1") None))
     = [ {| channel_id := Js.js "ch1"; team_id := Js.js "team1";
            root_id := None; parent_id := None |} ].
Proof.
  repeat split; vm_compute; reflexivity.
Qed.

(** ** The claims about [handleGotoLocation] *)

Lemma handleGotoLocation_dispatches env serverUrl intl location sdb m d link :
  serverDatabases env !! serverUrl = Some sdb ->
  let db := database (operator sdb) in
  matchedLink env db serverUrl location = Some m ->
  data m = Some d ->
  linkServerUrl env (Some m) = Some link ->
  truthy link = true ->
  passesPayloadChecks env db (linkType m) d = true ->
  result (handleGotoLocation env serverUrl intl location) = Data true
  /\ exists action,
       navigations (trace (handleGotoLocation env serverUrl intl location)) = [action]
       /\ EvNavigate action (navigationSucceeds env action)
          ∈ trace (handleGotoLocation env serverUrl intl location).
Proof.
  intros Hdb db Hm Hd Hlink Htruthy Hchecks.
  pose proof (handleGotoLocation_matched env serverUrl intl location
                sdb m link Hdb Hm Hlink Htruthy) as Hrun.
  unfold trace, result. rewrite Hrun. clear Hrun. rewrite Hd.
  change (default DeepLink.empty (Some d)) with d.
  unfold passesPayloadChecks in Hchecks. unfold dispatched. subst db.
  destruct (linkType m); simpl.
  - split; [reflexivity|]. eexists. split; [reflexivity|]. set_solver.
  - split; [reflexivity|]. eexists. split; [reflexivity|]. set_solver.
  - destruct (DeepLink.userName d) as [[|c u]|]; try discriminate.
    destruct (queryUsersByUsername env _ [c :: u]) as [|user users]; [discriminate|].
    split; [reflexivity|]. eexists. split; [reflexivity|]. set_solver.
  - destruct (DeepLink.channelId d) as [[|c i]|]; try discriminate.
    split; [reflexivity|]. eexists. split; [reflexivity|]. set_solver.
  - split; [reflexivity|]. eexists. split; [reflexivity|]. set_solver.
Qed.

(** C9. When the link matches no pattern, or the server of the matched link
    cannot be resolved locally, the external opener is called exactly once,
    with the link, no navigation is dispatched, and the result is
    [{data: true}]: the very result of any link [other] that is matched,
    resolved and dispatched. *)
Theorem unmatched_link_opens_url_once env serverUrl intl location sdb :
  serverDatabases env !! serverUrl = Some sdb ->
  let db := database (operator sdb) in
  matchedLink env db serverUrl location = None
  \/ truthy (linkServerUrl env (matchedLink env db serverUrl location)) = false ->
  openedURLs (trace (handleGotoLocation env serverUrl intl location)) = [location]
  /\ navigations (trace (handleGotoLocation env serverUrl intl location)) = []
  /\ result (handleGotoLocation env serverUrl intl location) = Data true
  /\ (forall other m d link,
        matchedLink env db serverUrl other = Some m ->
        data m = Some d ->
        linkServerUrl env (Some m) = Some link ->
        truthy link = true ->
        passesPayloadChecks env db (linkType m) d = true ->
        result (handleGotoLocation env serverUrl intl location)
        = result (handleGotoLocation env serverUrl intl other)).
Proof.
  intros Hdb db Hno.
  destruct (handleGotoLocation_fallback env serverUrl intl location sdb Hdb Hno)
    as (alerts & Hrun & Hopen & Hnav & _).
  assert (result (handleGotoLocation env serverUrl intl location) = Data true) as Hresult.
  { unfold result. rewrite Hrun. reflexivity. }
  split; [|split; [|split]].
  - unfold trace. rewrite Hrun. simpl. unfold openedURLs in *. rewrite Hopen. reflexivity.
  - unfold trace. rewrite Hrun. simpl. unfold navigations in *. rewrite Hnav. reflexivity.
  - exact Hresult.
  - intros other m d link Hm Hd Hlink Htruthy Hchecks. rewrite Hresult. symmetry.
    apply (handleGotoLocation_dispatches env serverUrl intl other sdb m d link
             Hdb Hm Hd Hlink Htruthy Hchecks).
Qed.

Lemma unmatched_link_witness :
  serverDatabases Sample.plain !! Sample.serverUrl
  = Some {| operator := {| database := Sample.db |} |}
  /\ (matchedLink Sample.plain Sample.db Sample.serverUrl Sample.location = None
      \/ truthy (linkServerUrl Sample.plain
                   (matchedLink Sample.plain Sample.db Sample.serverUrl Sample.location))
         = false)
  /\ openedURLs (trace (handleGotoLocation Sample.plain Sample.serverUrl Sample.intl
                          Sample.location)) = [Sample.location].
Proof.
  split; [vm_compute; reflexivity|]. split; [left; reflexivity|].
  apply (unmatched_link_opens_url_once Sample.plain Sample.serverUrl Sample.intl
           Sample.location {| operator := {| database := Sample.db |} |});
    [vm_compute; reflexivity|left; reflexivity].
Defined.



(** C3, as the code has it.  For a matched link whose server resolves
    locally: a DirectMessage link without a user name, a DirectMessage link
    whose user is not in the database, and a GroupMessage link without a
    channel id each show their alert and return [{data: false}]. *)
Theorem invalid_link_payload_reports_false env serverUrl intl location sdb m d link :
  serverDatabases env !! serverUrl = Some sdb ->
  let db := database (operator sdb) in
  matchedLink env db serverUrl location = Some m ->
  data m = Some d ->
  linkServerUrl env (Some m) = Some link ->
  truthy link = true ->
  let goto := handleGotoLocation env serverUrl intl location in
  (linkType m = DirectMessage -> truthy (DeepLink.userName d) = false ->
     run goto = ([EvGetConfig db; EvErrorUnknownUser], Data false))
  /\ (linkType m = DirectMessage ->
      forall userName,
        DeepLink.userName d = Some userName -> truthy userName = true ->
        queryUsersByUsername env db [userName] = [] ->
        run goto
        = ([EvGetConfig db; EvQueryUsersByUsername db [userName]; EvErrorUnknownUser],
           Data false))
  /\ (linkType m = GroupMessage -> truthy (DeepLink.channelId d) = false ->
      run goto = ([EvGetConfig db; EvErrorBadChannel], Data false)).
Proof.
  intros Hdb db Hm Hd Hlink Htruthy goto. subst goto.
  rewrite (handleGotoLocation_matched env serverUrl intl location sdb m link
             Hdb Hm Hlink Htruthy).
  rewrite Hd. change (default DeepLink.empty (Some d)) with d. fold db.
  unfold dispatched. split; [|split].
  - intros -> Hname. destruct (DeepLink.userName d) as [[|c u]|]; try discriminate; reflexivity.
  - intros -> userName -> Hname Hnone.
    destruct userName as [|c u]; [discriminate|]. rewrite Hnone. reflexivity.
  - intros -> Hid. destruct (DeepLink.channelId d) as [[|c i]|]; try discriminate; reflexivity.
Qed.

Lemma invalid_link_payload_witness :
  serverDatabases (Sample.linked (Sample.link DirectMessage None None) true [])
    !! Sample.serverUrl
  = Some {| operator := {| database := Sample.db |} |}
  /\ matchedLink (Sample.linked (Sample.link DirectMessage None None) true []) Sample.db
       Sample.serverUrl Sample.location
     = Some (Sample.link DirectMessage None None)
  /\ linkServerUrl (Sample.linked (Sample.link DirectMessage None None) true [])
       (Some (Sample.link DirectMessage None None))
     = Some (Js.js "https://b.example")
  /\ run (handleGotoLocation (Sample.linked (Sample.link DirectMessage None None) true [])
            Sample.serverUrl Sample.intl Sample.location)
     = ([EvGetConfig Sample.db; EvErrorUnknownUser], Data false).
Proof.
  split; [vm_compute; reflexivity|]. split; [reflexivity|]. split; [reflexivity|].
  eapply (invalid_link_payload_reports_false
            (Sample.linked (Sample.link DirectMessage None None) true [])
            Sample.serverUrl Sample.intl Sample.location
            {| operator := {| database := Sample.db |} |}
            (Sample.link DirectMessage None None));
    try reflexivity.
  all: vm_compute; reflexivity.
Defined.

Example unknown_user_reports_false :
  run (handleGotoLocation
         (Sample.linked (Sample.link DirectMessage (Some (Js.js "bob")) None) true [])
         Sample.serverUrl Sample.intl Sample.location)
  = ([EvGetConfig Sample.db; EvQueryUsersByUsername Sample.db [Js.js "bob"];
      EvErrorUnknownUser], Data false).
Proof. vm_compute. reflexivity. Qed.

Example missing_channel_id_reports_false :
  run (handleGotoLocation (Sample.linked (Sample.link GroupMessage None None) true [])
         Sample.serverUrl Sample.intl Sample.location)
  = ([EvGetConfig Sample.db; EvErrorBadChannel], Data false).
Proof. vm_compute. reflexivity. Qed.

(** C3, as the claim states it, fails: a link matched as DirectMessage
    without a user name, whose server is not known locally, is handed to the
    external opener and the result is [{data: true}]. *)
Lemma unresolved_direct_message_reports_true :
  matchedLink (Sample.linked (Sample.link DirectMessage None None) false []) Sample.db
    Sample.serverUrl Sample.location
  = Some (Sample.link DirectMessage None None)
  /\ (data (Sample.link DirectMessage None None) ≫= DeepLink.userName) = None
  /\ run (handleGotoLocation (Sample.linked (Sample.link DirectMessage None None) false [])
            Sample.serverUrl Sample.intl Sample.location)
     = ([EvGetConfig Sample.db; EvTryOpenURL Sample.location], Data true).
Proof.
  repeat split; vm_compute; reflexivity.
Qed.

Lemma handleGotoLocation_with_database env serverUrl intl location sdb :
  serverDatabases env !! serverUrl = Some sdb ->
  (exists b, result (handleGotoLocation env serverUrl intl location) = Data b)
  /\ Forall (fun db => db = database (operator sdb))
       (userQueries (trace (handleGotoLocation env serverUrl intl location))).
Proof.
  intros Hdb.
  assert (matchedLink env (database (operator sdb)) serverUrl location = None
          \/ truthy (linkServerUrl env
                       (matchedLink env (database (operator sdb)) serverUrl location)) = false
          -> (exists b, result (handleGotoLocation env serverUrl intl location) = Data b)
             /\ Forall (fun db => db = database (operator sdb))
                  (userQueries (trace (handleGotoLocation env serverUrl intl location))))
    as Hfallback.
  { intros Hno.
    destruct (handleGotoLocation_fallback env serverUrl intl location sdb Hdb Hno)
      as (alerts & Hrun & _ & _ & Huser).
    unfold trace, result. rewrite Hrun. simpl. split; [eauto|].
    unfold userQueries in *. rewrite Huser. apply Forall_nil_2. }
  destruct (matchedLink env (database (operator sdb)) serverUrl location) as [m|] eqn:Hm;
    [|auto].
  destruct (linkServerUrl env (Some m)) as [link|] eqn:Hlink; [|auto].
  destruct (truthy link) eqn:Htruthy; [|auto].
  unfold trace, result.
  rewrite (handleGotoLocation_matched env serverUrl intl location sdb m link
             Hdb Hm Hlink Htruthy).
  split; [simpl; eauto|]. unfold dispatched.
  repeat case_match; simpl; repeat constructor.
Qed.

(** C10. [handleGotoLocation] returns [{error}] only from its entry check:
    an error result means the operator was missing and nothing had been
    done, so the "database not found" return inside the DirectMessage branch
    is never taken.  With the operator present the result is [{data}], and
    every user lookup queries the database of the server that was passed
    in, whichever server the link names. *)
Theorem goto_error_only_at_entry env serverUrl intl location :
  (forall text,
     result (handleGotoLocation env serverUrl intl location) = Error text ->
     serverDatabases env !! serverUrl = None
     /\ trace (handleGotoLocation env serverUrl intl location) = [])
  /\ (forall sdb,
        serverDatabases env !! serverUrl = Some sdb ->
        (exists b, result (handleGotoLocation env serverUrl intl location) = Data b)
        /\ Forall (fun db => db = database (operator sdb))
             (userQueries (trace (handleGotoLocation env serverUrl intl location)))).
Proof.
  split.
  - intros text Herror.
    destruct (serverDatabases env !! serverUrl) as [sdb|] eqn:Hdb.
    + destruct (handleGotoLocation_with_database env serverUrl intl location sdb Hdb)
        as ((b & Hdata) & _).
      congruence.
    + split; [reflexivity|]. unfold trace.
      now rewrite (handleGotoLocation_missing_database env serverUrl intl location Hdb).
  - intros sdb Hdb. exact (handleGotoLocation_with_database env serverUrl intl location sdb Hdb).
Qed.

Lemma goto_error_witness :
  serverDatabases
    (Sample.linked (Sample.link DirectMessage (Some (Js.js "alice")) None) true [Sample.alice])
    !! Sample.serverUrl
  = Some {| operator := {| database := Sample.db |} |}
  /\ (exists b,
        result (handleGotoLocation
                  (Sample.linked (Sample.link DirectMessage (Some (Js.js "alice")) None) true
                     [Sample.alice])
                  Sample.serverUrl Sample.intl Sample.location) = Data b)
  /\ Forall (fun db => db = Sample.db)
       (userQueries
          (trace (handleGotoLocation
                    (Sample.linked (Sample.link DirectMessage (Some (Js.js "alice")) None) true
                       [Sample.alice])
                    Sample.serverUrl Sample.intl Sample.location))).
Proof.
  split; [vm_compute; reflexivity|].
  apply (proj2 (goto_error_only_at_entry
                  (Sample.linked (Sample.link DirectMessage (Some (Js.js "alice")) None) true
                     [Sample.alice])
                  Sample.serverUrl Sample.intl Sample.location)
           {| operator := {| database := Sample.db |} |}).
  vm_compute. reflexivity.
Defined.

(** The link names [https://b.example]; the user is looked up in the
    database of [https://a.example], and the conversation is opened on the
    other server. *)
Example cross_server_direct_message :
  run (handleGotoLocation
         (Sample.linked (Sample.link DirectMessage (Some (Js.js "alice")) None) true
            [Sample.alice])
         Sample.serverUrl Sample.intl Sample.location)
  = ([EvGetConfig Sample.db;
      EvQueryUsersByUsername Sample.db [Js.js "alice"];
      EvGetTeammateNameDisplay Sample.db;
      EvNavigate (MakeDirectChannel (Js.js "https://b.example") (Js.js "u1")
                    (Js.js "alice") true) false],
     Data true).
Proof. vm_compute. reflexivity. Qed.

(** ** The claim about [executeAppCommand] *)

Lemma formatTemplate_unknown_type (tag : list N) :
  formatTemplate [(Js.js "type", tag)] (defaultMessage unknownTypeMessage) None
  = Js.js "App response type not supported. Response type: " ++ tag ++ Js.js ".".
Proof. reflexivity. Qed.

(** C5. For every response of the app, [executeAppCommand] returns
    [{data: {}}] or [{error: {message}}].  When the type tag is none of OK,
    FORM and NAVIGATE the result is the error whose message is the
    "unknown type" text formatted with the tag; if the message is rendered
    from its default text, the tag occurs in it. *)
Theorem unsupported_response_type_is_an_error ResponseTypes env serverUrl intl parser msg
    args c callResp :
  creq (composeCommandSubmitCall env parser msg) = Some c ->
  doAppSubmit env serverUrl c = inr callResp ->
  let r := result (executeAppCommand ResponseTypes env serverUrl intl parser msg args) in
  (r = Data EmptyObject \/ exists errMessage, r = Error (ErrorMessage errMessage))
  /\ (type callResp <> OK ResponseTypes ->
      type callResp <> FORM ResponseTypes ->
      type callResp <> NAVIGATE ResponseTypes ->
      r = Error (ErrorMessage (Some
            (formatMessage intl unknownTypeMessage [(Js.js "type", type callResp)])))
      /\ (rendersDefault intl unknownTypeMessage ->
          exists text,
            r = Error (ErrorMessage (Some text)) /\ Js.includes text (type callResp))).
Proof.
  intros Hc Hres r. split.
  - apply executeAppCommand_shape.
  - intros Hok Hform Hnavigate.
    assert (r = Error (ErrorMessage (Some
              (formatMessage intl unknownTypeMessage [(Js.js "type", type callResp)]))))
      as Hr.
    { subst r. rewrite (executeAppCommand_response ResponseTypes env serverUrl intl parser
                          msg args c callResp Hc Hres).
      apply eqb_neq in Hok, Hform, Hnavigate. rewrite Hok, Hform, Hnavigate. reflexivity. }
    split; [exact Hr|]. intros Hrenders. eexists. split; [exact Hr|].
    rewrite Hrenders, formatTemplate_unknown_type.
    eexists _, _. reflexivity.
Qed.

Lemma unsupported_response_witness :
  creq (composeCommandSubmitCall Sample.withApps
          (contextParser Sample.withApps Sample.db Sample.serverUrl (Js.js "ch1") None)
          (Js.js "/jira issue"))
  = Some Sample.submitCall
  /\ doAppSubmit Sample.withApps Sample.serverUrl Sample.submitCall = inr Sample.bogusResponse
  /\ rendersDefault Sample.intl unknownTypeMessage
  /\ exists text,
       result (executeAppCommand Sample.types Sample.withApps Sample.serverUrl Sample.intl
                 (contextParser Sample.withApps Sample.db Sample.serverUrl (Js.js "ch1") None)
                 (Js.js "/jira issue")
                 (contextArgs Sample.withApps Sample.db (Js.js "ch1") None))
       = Error (ErrorMessage (Some text))
       /\ Js.includes text (Js.js "bogus").
Proof.
  assert (rendersDefault Sample.intl unknownTypeMessage) as Hrenders.
  { intros values. reflexivity. }
  split; [reflexivity|]. split; [reflexivity|]. split; [exact Hrenders|].
  apply (unsupported_response_type_is_an_error Sample.types Sample.withApps Sample.serverUrl
           Sample.intl
           (contextParser Sample.withApps Sample.db Sample.serverUrl (Js.js "ch1") None)
           (Js.js "/jira issue")
           (contextArgs Sample.withApps Sample.db (Js.js "ch1") None)
           Sample.submitCall Sample.bogusResponse);
    try reflexivity; try exact Hrenders; vm_compute; discriminate.
Defined.

Example unsupported_response_text :
  result (executeAppCommand Sample.types Sample.withApps Sample.serverUrl Sample.intl
            (contextParser Sample.withApps Sample.db Sample.serverUrl (Js.js "ch1") None)
            (Js.js "/jira issue")
            (contextArgs Sample.withApps Sample.db (Js.js "ch1") None))
  = Error (ErrorMessage (Some
      (Js.js "App response type not supported. Response type: bogus."))).
Proof. vm_compute. reflexivity. Qed.

(** ** Further properties: the normaliser *)

Lemma replaceAll_absent (c : N) (rep s : list N) : c ∉ s -> Js.replaceAll c rep s = s.
Proof.
  induction s as [|d s IH]; simpl; [reflexivity|].
  rewrite not_elem_of_cons. intros [Hne Hs].
  destruct (N.eqb_spec d c) as [->|_]; [congruence|]. simpl. now rewrite IH.
Qed.

Lemma replaceAll_keeps_absent (c d : N) (rep s : list N) :
  d ∉ rep -> d ∉ s -> d ∉ Js.replaceAll c rep s.
Proof.
  intros Hrep. induction s as [|e s IH]; simpl; [auto|].
  rewrite not_elem_of_cons. intros [Hne Hs]. rewrite not_elem_of_app. split; [|auto].
  destruct (e =? c); [assumption|]. intros H. apply list_elem_of_singleton in H. congruence.
Qed.

Lemma hyphens_have_no_em_dash : Js.EM_DASH ∉ Js.js "--".
Proof.
  intros H. repeat (apply elem_of_cons in H as [H|H]; [discriminate|]).
  apply elem_of_nil in H. exact H.
Qed.

(** X1. The filter changes a command exactly when it contains an em-dash,
    and filtering twice is filtering once. *)
Theorem filter_fixes_dashless_commands (command : list N) :
  (filterEmDashForCommand command = command <-> Js.EM_DASH ∉ command)
  /\ filterEmDashForCommand (filterEmDashForCommand command) = filterEmDashForCommand command.
Proof.
  assert (Js.EM_DASH ∉ filterEmDashForCommand command) as Hclean.
  { apply replaceAll_removes, hyphens_have_no_em_dash. }
  split; [split|].
  - intros Heq. rewrite <- Heq. exact Hclean.
  - apply replaceAll_absent.
  - apply replaceAll_absent, Hclean.
Qed.

(** X2. Each em-dash becomes two code units: the filtered command is longer
    than the command by the number of its em-dashes. *)
Theorem filter_length (command : list N) :
  List.length (filterEmDashForCommand command)
  = (List.length command + countUnit Js.EM_DASH command)%nat.
Proof.
  unfold filterEmDashForCommand, countUnit.
  induction command as [|c s IH]; [reflexivity|].
  cbn [Js.replaceAll List.filter]. rewrite length_app, IH, (N.eqb_sym Js.EM_DASH c).
  destruct (c =? Js.EM_DASH); simpl; lia.
Qed.

Lemma indexOf_absent (c : N) (s : list N) : c ∉ s -> Js.indexOf c s = (-1)%Z.
Proof.
  intros Hs. destruct (indexOf_spec c s) as [[H _]|(n & r & _ & _ & Hdrop)]; [exact H|].
  exfalso. apply Hs. rewrite <- (take_drop n s), Hdrop. set_solver.
Qed.

Lemma indexOf_first (c : N) (a b : list N) :
  c ∉ a -> Js.indexOf c (a ++ c :: b) = Z.of_nat (List.length a).
Proof.
  induction a as [|d a IH]; simpl.
  - intros _. now rewrite N.eqb_refl.
  - rewrite not_elem_of_cons. intros [Hne Ha].
    destruct (N.eqb_spec d c) as [->|_]; [congruence|].
    rewrite (IH Ha). destruct (Z.ltb_spec (Z.of_nat (List.length a)) 0); lia.
Qed.

(** The message sent for a filtered message without a space, and for one
    whose first space follows [cmd]. *)
Lemma recompose_without_space toLowerCase message :
  Js.SPACE ∉ filterEmDashForCommand message ->
  recompose toLowerCase message
  = toLowerCase (filterEmDashForCommand message) ++ Js.js " ".
Proof.
  intros Hspace. unfold recompose. rewrite (indexOf_absent _ _ Hspace). simpl.
  rewrite (substring_prefix _ (List.length (filterEmDashForCommand message))),
    (substring_suffix _ (List.length (filterEmDashForCommand message))) by lia.
  rewrite firstn_all, drop_all. destruct (Js.eqb _ _); reflexivity.
Qed.

Lemma recompose_at_space toLowerCase message cmd r :
  filterEmDashForCommand message = cmd ++ Js.SPACE :: r ->
  Js.SPACE ∉ cmd ->
  recompose toLowerCase message
  = if Js.eqb (toLowerCase cmd) (Js.js "/code")
    then toLowerCase cmd ++ Js.js " " ++ Js.trimEnd (Js.SPACE :: r)
    else toLowerCase cmd ++ Js.js " " ++ Js.trim r.
Proof.
  intros Hsplit Hcmd. unfold recompose. rewrite Hsplit, (indexOf_first _ _ _ Hcmd).
  destruct (Z.ltb_spec (Z.of_nat (List.length cmd)) 0); [lia|].
  rewrite substring_prefix, substring_suffix by (rewrite length_app; lia).
  rewrite take_app_length, drop_app_length. reflexivity.
Qed.

(** X3. A message without a space, the empty message included, is sent as
    its lower-cased, filtered text followed by one space: the backend never
    receives a bare command token. *)
Theorem spaceless_message_gets_a_space toLowerCase ResponseTypes env serverUrl intl
    message channelId rootId sdb client :
  serverDatabases env !! serverUrl = Some sdb ->
  getClient env serverUrl = inr client ->
  isAppPath env (database (operator sdb)) serverUrl message channelId rootId = false ->
  Js.SPACE ∉ message ->
  sentToBackend (trace (executeCommand toLowerCase ResponseTypes env serverUrl intl
                          message channelId rootId))
  = [toLowerCase (filterEmDashForCommand message) ++ Js.js " "].
Proof.
  intros Hdb Hclient Happ Hspace.
  destruct (executeCommand_backend_observed toLowerCase ResponseTypes env serverUrl intl
              message channelId rootId sdb client Hdb Hclient Happ) as (-> & _).
  rewrite recompose_without_space; [reflexivity|].
  apply replaceAll_keeps_absent; [|exact Hspace].
  intros H. repeat (apply elem_of_cons in H as [H|H]; [discriminate|]).
  apply elem_of_nil in H. exact H.
Qed.

Lemma spaceless_message_witness :
  serverDatabases Sample.plain !! Sample.serverUrl
  = Some {| operator := {| database := Sample.db |} |}
  /\ (Js.SPACE ∉ Js.js "/AWAY")
  /\ sentToBackend (trace (executeCommand Js.toLowerCaseAscii Sample.types Sample.plain
                            Sample.serverUrl Sample.intl (Js.js "/AWAY") (Js.js "ch1") None))
     = [Js.toLowerCaseAscii (filterEmDashForCommand (Js.js "/AWAY")) ++ Js.js " "].
Proof.
  assert (Js.SPACE ∉ Js.js "/AWAY") as Hspace.
  { intros H. repeat (apply elem_of_cons in H as [H|H]; [discriminate|]).
    apply elem_of_nil in H. exact H. }
  split; [vm_compute; reflexivity|]. split; [exact Hspace|].
  apply (spaceless_message_gets_a_space Js.toLowerCaseAscii Sample.types Sample.plain
           Sample.serverUrl Sample.intl (Js.js "/AWAY") (Js.js "ch1") None
           {| operator := {| database := Sample.db |} |} Sample.client);
    [vm_compute; reflexivity|reflexivity|reflexivity|exact Hspace].
Defined.

Example bare_command_sent :
  sentToBackend (trace (executeCommand Js.toLowerCaseAscii Sample.types Sample.plain
                          Sample.serverUrl Sample.intl (Js.js "/AWAY") (Js.js "ch1") None))
  = [Js.js "/away "]
  /\ sentToBackend (trace (executeCommand Js.toLowerCaseAscii Sample.types Sample.plain
                             Sample.serverUrl Sample.intl [] (Js.js "ch1") None))
     = [Js.js " "].
Proof. split; vm_compute; reflexivity. Qed.

Lemma trimStart_fixed (s : list N) : startsWithWhiteSpace s = false -> Js.trimStart s = s.
Proof. destruct s as [|c s]; simpl; [reflexivity|]. now intros ->. Qed.

Lemma trimEnd_fixed (s : list N) : endsWithWhiteSpace s = false -> Js.trimEnd s = s.
Proof.
  induction s as [|c s IH]; [reflexivity|].
  destruct s as [|d s].
  - unfold endsWithWhiteSpace. simpl. now intros ->.
  - rewrite endsWithWhiteSpace_cons by discriminate. intros Hend.
    change (Js.trimEnd (c :: d :: s))
      with (match Js.trimEnd (d :: s) with
            | [] => if Js.isWhiteSpace c then [] else [c]
            | t => c :: t
            end).
    rewrite (IH Hend). reflexivity.
Qed.

Lemma trim_fixed (s : list N) : Js.trim (Js.trim s) = Js.trim s.
Proof.
  destruct (trim_split s) as (_ & _ & _ & _ & _ & Hstart & Hend).
  unfold Js.trim at 1. rewrite (trimStart_fixed _ Hstart). apply trimEnd_fixed, Hend.
Qed.

Lemma trimEnd_all_whitespace (s : list N) : allWhiteSpace s = true -> Js.trimEnd s = [].
Proof.
  induction s as [|c s IH]; simpl; [reflexivity|].
  rewrite andb_true_iff. intros [Hc Hs]. now rewrite (IH Hs), Hc.
Qed.

Lemma trimEnd_some_text (s : list N) : allWhiteSpace s = false -> Js.trimEnd s <> [].
Proof.
  intros Hs Hnil. destruct (trimEnd_split s) as (ws & Heq & Hws & _).
  rewrite Hnil in Heq. simpl in Heq. congruence.
Qed.

Lemma recompose_no_em_dash toLowerCase message :
  (forall s, Js.EM_DASH ∉ s -> Js.EM_DASH ∉ toLowerCase s) ->
  Js.EM_DASH ∉ recompose toLowerCase message.
Proof.
  intros Hlower.
  destruct (recompose_split toLowerCase message) as (cmd & rest & Hsplit & _ & _ & ->).
  pose proof (replaceAll_removes Js.EM_DASH (Js.js "--") message hyphens_have_no_em_dash)
    as Hfilter.
  fold (filterEmDashForCommand message) in Hfilter.
  rewrite Hsplit in Hfilter. apply not_elem_of_app in Hfilter as [Hcmd Hrest].
  assert (Js.EM_DASH ∉ Js.js " ") as Hspace.
  { intros H. apply list_elem_of_singleton in H. discriminate. }
  destruct (Js.eqb _ _); rewrite !not_elem_of_app; repeat split; auto.
  - intros H. apply Hrest. eapply elem_of_trimEnd, H.
  - intros H. apply Hrest. eapply elem_of_trim, H.
Qed.

(** X4. After [/code] the space that separated the command from its
    argument is kept and another one is inserted: the argument arrives
    behind two spaces, unless it is blank, in which case [/code] and one
    space are sent. *)
Theorem code_argument_gains_a_space toLowerCase ResponseTypes env serverUrl intl
    message channelId rootId sdb client cmd r :
  serverDatabases env !! serverUrl = Some sdb ->
  getClient env serverUrl = inr client ->
  isAppPath env (database (operator sdb)) serverUrl message channelId rootId = false ->
  filterEmDashForCommand message = cmd ++ Js.SPACE :: r ->
  Js.SPACE ∉ cmd ->
  toLowerCase cmd = Js.js "/code" ->
  sentToBackend (trace (executeCommand toLowerCase ResponseTypes env serverUrl intl
                          message channelId rootId))
  = [if allWhiteSpace r then Js.js "/code " else Js.js "/code  " ++ Js.trimEnd r].
Proof.
  intros Hdb Hclient Happ Hsplit Hcmd Hcode.
  destruct (executeCommand_backend_observed toLowerCase ResponseTypes env serverUrl intl
              message channelId rootId sdb client Hdb Hclient Happ) as (-> & _).
  rewrite (recompose_at_space toLowerCase message cmd r Hsplit Hcmd), Hcode.
  change (Js.eqb (Js.js "/code") (Js.js "/code")) with true. cbv iota.
  change (Js.trimEnd (Js.SPACE :: r))
    with (match Js.trimEnd r with [] => [] | t => Js.SPACE :: t end).
  destruct (allWhiteSpace r) eqn:Hr.
  - rewrite (trimEnd_all_whitespace r Hr). reflexivity.
  - pose proof (trimEnd_some_text r Hr) as Hsome.
    destruct (Js.trimEnd r); [congruence|reflexivity].
Qed.

Lemma code_argument_space_witness :
  serverDatabases Sample.plain !! Sample.serverUrl
  = Some {| operator := {| database := Sample.db |} |}
  /\ filterEmDashForCommand (Js.js "/CODE x = 1") = Js.js "/CODE" ++ Js.SPACE :: Js.js "x = 1"
  /\ (Js.SPACE ∉ Js.js "/CODE")
  /\ sentToBackend (trace (executeCommand Js.toLowerCaseAscii Sample.types Sample.plain
                            Sample.serverUrl Sample.intl (Js.js "/CODE x = 1")
                            (Js.js "ch1") None))
     = [if allWhiteSpace (Js.js "x = 1") then Js.js "/code "
        else Js.js "/code  " ++ Js.trimEnd (Js.js "x = 1")].
Proof.
  assert (Js.SPACE ∉ Js.js "/CODE") as Hspace.
  { intros H. repeat (apply elem_of_cons in H as [H|H]; [discriminate|]).
    apply elem_of_nil in H. exact H. }
  split; [vm_compute; reflexivity|]. split; [reflexivity|]. split; [exact Hspace|].
  apply (code_argument_gains_a_space Js.toLowerCaseAscii Sample.types Sample.plain
           Sample.serverUrl Sample.intl (Js.js "/CODE x = 1") (Js.js "ch1") None
           {| operator := {| database := Sample.db |} |} Sample.client
           (Js.js "/CODE") (Js.js "x = 1"));
    [vm_compute; reflexivity|reflexivity|reflexivity|reflexivity|exact Hspace|reflexivity].
Defined.

Lemma asciiLower_fixed (c : N) : Js.asciiLower (Js.asciiLower c) = Js.asciiLower c.
Proof.
  unfold Js.asciiLower.
  destruct ((0x41 <=? c) && (c <=? 0x5A)) eqn:Hc; [|now rewrite Hc].
  apply andb_true_iff in Hc as [Hlo Hhi]. apply N.leb_le in Hlo, Hhi.
  destruct (N.leb_spec 0x41 (c + 0x20)), (N.leb_spec (c + 0x20) 0x5A); simpl;
    try reflexivity; lia.
Qed.

Lemma toLowerCaseAscii_fixed (s : list N) :
  Js.toLowerCaseAscii (Js.toLowerCaseAscii s) = Js.toLowerCaseAscii s.
Proof.
  unfold Js.toLowerCaseAscii. rewrite List.map_map. apply List.map_ext, asciiLower_fixed.
Qed.

Lemma toLowerCaseAscii_no_space (s : list N) :
  Js.SPACE ∉ s -> Js.SPACE ∉ Js.toLowerCaseAscii s.
Proof.
  intros Hs Hin. apply Hs. unfold Js.toLowerCaseAscii in Hin.
  apply list_elem_of_In, in_map_iff in Hin as (c & Hc & Hin).
  apply list_elem_of_In. unfold Js.asciiLower, Js.SPACE in *.
  destruct (N.leb_spec 0x41 c), (N.leb_spec c 0x5A); simpl in Hc; subst; try assumption; lia.
Qed.

(** X5. Sending what was sent: if lower-casing is idempotent and introduces
    neither a space nor an em-dash, then, with the filtered message split at
    its first space into [cmd] and [rest]: after a command other than
    [/code], recomposing the recomposed message changes nothing; after
    [/code], the message is recomposed to [/code], a space and the remainder
    without its trailing whitespace, and recomposing that again puts one
    more space in front of a non-empty remainder, so the second pass
    changes the message. *)
Theorem recompose_twice toLowerCase message :
  (forall s, toLowerCase (toLowerCase s) = toLowerCase s) ->
  (forall s, Js.SPACE ∉ s -> Js.SPACE ∉ toLowerCase s) ->
  (forall s, Js.EM_DASH ∉ s -> Js.EM_DASH ∉ toLowerCase s) ->
  exists cmd rest,
    filterEmDashForCommand message = cmd ++ rest
    /\ (Js.SPACE ∉ cmd)
    /\ (rest = [] \/ exists r, rest = Js.SPACE :: r)
    /\ (toLowerCase cmd <> Js.js "/code" ->
        recompose toLowerCase (recompose toLowerCase message)
        = recompose toLowerCase message)
    /\ (toLowerCase cmd = Js.js "/code" ->
        recompose toLowerCase message = Js.js "/code " ++ Js.trimEnd rest
        /\ recompose toLowerCase (recompose toLowerCase message)
           = match Js.trimEnd rest with
             | [] => Js.js "/code "
             | arg => Js.js "/code  " ++ arg
             end
        /\ (Js.trimEnd rest <> [] ->
            recompose toLowerCase (recompose toLowerCase message)
            <> recompose toLowerCase message)).
Proof.
  intros Hfixed Hspace Hdash.
  pose proof (recompose_no_em_dash toLowerCase message Hdash) as Hclean.
  destruct (recompose_split toLowerCase message)
    as (cmd & rest & Hsplit & Hcmd & Hrest & Hsent).
  exists cmd, rest. split; [exact Hsplit|]. split; [exact Hcmd|]. split; [exact Hrest|].
  assert (forall arg, recompose toLowerCase message = toLowerCase cmd ++ Js.js " " ++ arg ->
            recompose toLowerCase (recompose toLowerCase message)
            = if Js.eqb (toLowerCase cmd) (Js.js "/code")
              then toLowerCase cmd ++ Js.js " " ++ Js.trimEnd (Js.SPACE :: arg)
              else toLowerCase cmd ++ Js.js " " ++ Js.trim arg) as Hagain.
  { intros arg Harg.
    rewrite (recompose_at_space toLowerCase (recompose toLowerCase message)
               (toLowerCase cmd) arg).
    - rewrite Hfixed. reflexivity.
    - unfold filterEmDashForCommand. rewrite (replaceAll_absent _ _ _ Hclean). exact Harg.
    - apply Hspace, Hcmd. }
  split.
  - intros Hother. apply eqb_neq in Hother. rewrite Hother in Hsent.
    rewrite (Hagain _ Hsent), Hother, trim_fixed. symmetry. exact Hsent.
  - intros Hcode. apply eqb_eq in Hcode as Heqb. rewrite Heqb in Hsent.
    assert (recompose toLowerCase message = Js.js "/code " ++ Js.trimEnd rest) as Hfirst.
    { rewrite Hsent, Hcode. reflexivity. }
    assert (recompose toLowerCase (recompose toLowerCase message)
            = match Js.trimEnd rest with
              | [] => Js.js "/code "
              | arg => Js.js "/code  " ++ arg
              end) as Hsecond.
    { rewrite (Hagain _ Hsent), Heqb, Hcode.
      destruct (trimEnd_split rest) as (_ & _ & _ & Hend).
      change (Js.trimEnd (Js.SPACE :: Js.trimEnd rest))
        with (match Js.trimEnd (Js.trimEnd rest) with [] => [] | t => Js.SPACE :: t end).
      rewrite (trimEnd_fixed _ Hend). destruct (Js.trimEnd rest); reflexivity. }
    split; [exact Hfirst|]. split; [exact Hsecond|].
    intros Hsome Hsame. rewrite Hsecond, Hfirst in Hsame.
    destruct (Js.trimEnd rest) as [|c arg]; [congruence|].
    apply (f_equal (@List.length N)) in Hsame. simpl in Hsame. lia.
Qed.

Lemma recompose_twice_witness :
  (forall s, Js.toLowerCaseAscii (Js.toLowerCaseAscii s) = Js.toLowerCaseAscii s)
  /\ (forall s, Js.SPACE ∉ s -> Js.SPACE ∉ Js.toLowerCaseAscii s)
  /\ (forall s, Js.EM_DASH ∉ s -> Js.EM_DASH ∉ Js.toLowerCaseAscii s)
  /\ exists cmd rest,
       filterEmDashForCommand (Js.js "/Code x ") = cmd ++ rest
       /\ (Js.SPACE ∉ cmd)
       /\ (rest = [] \/ exists r, rest = Js.SPACE :: r)
       /\ (Js.toLowerCaseAscii cmd <> Js.js "/code" ->
           recompose Js.toLowerCaseAscii (recompose Js.toLowerCaseAscii (Js.js "/Code x "))
           = recompose Js.toLowerCaseAscii (Js.js "/Code x "))
       /\ (Js.toLowerCaseAscii cmd = Js.js "/code" ->
           recompose Js.toLowerCaseAscii (Js.js "/Code x ")
           = Js.js "/code " ++ Js.trimEnd rest
           /\ recompose Js.toLowerCaseAscii
                (recompose Js.toLowerCaseAscii (Js.js "/Code x "))
              = match Js.trimEnd rest with
                | [] => Js.js "/code "
                | arg => Js.js "/code  " ++ arg
                end
           /\ (Js.trimEnd rest <> [] ->
               recompose Js.toLowerCaseAscii
                 (recompose Js.toLowerCaseAscii (Js.js "/Code x "))
               <> recompose Js.toLowerCaseAscii (Js.js "/Code x "))).
Proof.
  split; [exact toLowerCaseAscii_fixed|]. split; [exact toLowerCaseAscii_no_space|].
  split; [exact toLowerCaseAscii_no_em_dash|].
  apply recompose_twice.
  - exact toLowerCaseAscii_fixed.
  - exact toLowerCaseAscii_no_space.
  - exact toLowerCaseAscii_no_em_dash.
Defined.

Example code_spaces_accumulate :
  recompose Js.toLowerCaseAscii (Js.js "/code x") = Js.js "/code  x"
  /\ recompose Js.toLowerCaseAscii (Js.js "/code  x") = Js.js "/code   x"
  /\ recompose Js.toLowerCaseAscii (Js.js "/Away  brb ") = Js.js "/away brb"
  /\ recompose Js.toLowerCaseAscii (Js.js "/away brb") = Js.js "/away brb".
Proof. repeat split; vm_compute; reflexivity. Qed.

(** ** Further properties: [executeCommand] *)

(** X6. Whatever the path, every command context that leaves
    [executeCommand] names the channel it was called with, and its root and
    parent ids are both the root id it was called with. *)
Theorem command_context_mirrors_thread toLowerCase ResponseTypes env serverUrl intl
    message channelId rootId :
  Forall (fun e => forall args,
            eventArgs e = Some args ->
            channel_id args = channelId /\ root_id args = rootId /\ parent_id args = rootId)
    (trace (executeCommand toLowerCase ResponseTypes env serverUrl intl
              message channelId rootId)).
Proof.
  destruct (serverDatabases env !! serverUrl) as [sdb|] eqn:Hdb.
  - destruct (getClient env serverUrl) as [error|client] eqn:Hclient.
    + unfold trace.
      rewrite (executeCommand_no_client toLowerCase ResponseTypes env serverUrl intl
                 message channelId rootId sdb error Hdb Hclient).
      apply Forall_cons. split; [intros args Hargs; discriminate|apply Forall_nil_2].
    + assert (Forall (fun e => forall args, eventArgs e = Some args
                -> args = contextArgs env (database (operator sdb)) channelId rootId)
                (trace (executeCommand toLowerCase ResponseTypes env serverUrl intl
                          message channelId rootId))) as Hargs.
      { destruct (isAppPath env (database (operator sdb)) serverUrl message channelId rootId)
          eqn:Happ.
        - apply (executeCommand_app_observed toLowerCase ResponseTypes _ _ intl _ _ _ _ _
                   Hdb Hclient Happ).
        - apply (executeCommand_backend_observed toLowerCase ResponseTypes _ _ intl _ _ _ _ _
                   Hdb Hclient Happ). }
      eapply Forall_impl; [exact Hargs|]. intros e He args Heq.
      rewrite (He args Heq). repeat split.
  - unfold trace.
    rewrite (executeCommand_missing_database toLowerCase ResponseTypes env serverUrl intl
               message channelId rootId Hdb).
    constructor.
Qed.

Lemma triggerIds_quiet ResponseTypes env serverUrl intl location parser msg args db channelId :
  triggerIds (trace (handleGotoLocation env serverUrl intl location)) = []
  /\ triggerIds (trace (executeAppCommand ResponseTypes env serverUrl intl parser msg args)) = []
  /\ triggerIds (contextEvents env db serverUrl channelId) = [].
Proof.
  assert (forall l, triggerIds (trace (handleGotoLocation env serverUrl intl l)) = []) as Hgoto.
  { intros l. unfold handleGotoLocation, linkServerUrl. act_unfold.
    repeat (case_match; simplify_eq/=); reflexivity. }
  split; [apply Hgoto|]. split.
  - unfold executeAppCommand. act_unfold. simpl.
    repeat (case_match; simplify_eq/=); rewrite ?app_nil_r; first [apply Hgoto|reflexivity].
  - unfold contextEvents. repeat case_match; reflexivity.
Qed.

(** X7. A trigger id is recorded only after the backend has answered: once,
    when the answer carries a non-empty trigger id and the server has an
    integrations manager; never on the app path, after a failed call, or
    for an answer without trigger id. *)
Theorem trigger_id_recorded_once toLowerCase ResponseTypes env serverUrl intl
    message channelId rootId sdb client :
  serverDatabases env !! serverUrl = Some sdb ->
  getClient env serverUrl = inr client ->
  let db := database (operator sdb) in
  triggerIds (trace (executeCommand toLowerCase ResponseTypes env serverUrl intl
                       message channelId rootId))
  = if isAppPath env db serverUrl message channelId rootId then []
    else match clientExecuteCommand env client (recompose toLowerCase message)
                 (contextArgs env db channelId rootId) with
         | inr (Some response) =>
             match trigger_id response with
             | Some (c :: id) => if hasIntegrationsManager env serverUrl then [c :: id] else []
             | _ => []
             end
         | _ => []
         end.
Proof.
  intros Hdb Hclient db. subst db. unfold trace.
  destruct (triggerIds_quiet ResponseTypes env serverUrl intl []
              (contextParser env (database (operator sdb)) serverUrl channelId rootId)
              message (contextArgs env (database (operator sdb)) channelId rootId)
              (database (operator sdb)) channelId) as (_ & Happ_quiet & Hcontext).
  destruct (isAppPath env (database (operator sdb)) serverUrl message channelId rootId)
    eqn:Happ.
  - rewrite (executeCommand_app_path _ _ _ _ intl _ _ _ _ _ Hdb Hclient Happ).
    cbn [fst]. unfold triggerIds in *. rewrite omap_app, Hcontext, Happ_quiet. reflexivity.
  - rewrite (executeCommand_backend_path _ _ _ _ intl _ _ _ _ _ Hdb Hclient Happ).
    destruct (clientExecuteCommand env client _ _) as [error|data]; cbn [fst];
      unfold triggerIds in *; rewrite omap_app, Hcontext; [reflexivity|].
    unfold triggerEvents. destruct data as [response|]; [|reflexivity]. simpl.
    destruct (trigger_id response) as [[|c id]|]; simpl; try reflexivity.
    destruct (hasIntegrationsManager env serverUrl); reflexivity.
Qed.

Lemma trigger_id_witness :
  serverDatabases (Cases.backend (inr (Some Cases.triggered))) !! Sample.serverUrl
  = Some {| operator := {| database := Sample.db |} |}
  /\ triggerIds (trace (executeCommand Js.toLowerCaseAscii Sample.types
                          (Cases.backend (inr (Some Cases.triggered)))
                          Sample.serverUrl Sample.intl (Js.js "/poll") (Js.js "ch1") None))
     = [Js.js "t42"].
Proof.
  split; [vm_compute; reflexivity|].
  apply (trigger_id_recorded_once Js.toLowerCaseAscii Sample.types
           (Cases.backend (inr (Some Cases.triggered)))
           Sample.serverUrl Sample.intl (Js.js "/poll") (Js.js "ch1") None
           {| operator := {| database := Sample.db |} |} Sample.client);
    [vm_compute; reflexivity|reflexivity].
Defined.

(** X8. A transport failure of the backend call is final: the message was
    sent once, the thrown error is returned as it is, and no trigger id is
    recorded. *)
Theorem backend_failure_is_returned toLowerCase ResponseTypes env serverUrl intl
    message channelId rootId sdb client error :
  serverDatabases env !! serverUrl = Some sdb ->
  getClient env serverUrl = inr client ->
  let db := database (operator sdb) in
  isAppPath env db serverUrl message channelId rootId = false ->
  clientExecuteCommand env client (recompose toLowerCase message)
    (contextArgs env db channelId rootId) = inl error ->
  let command :=
    executeCommand toLowerCase ResponseTypes env serverUrl intl message channelId rootId in
  result command = Error (ErrorClient error)
  /\ sentToBackend (trace command) = [recompose toLowerCase message]
  /\ last (trace command)
     = Some (EvClientExecuteCommand client (recompose toLowerCase message)
               (contextArgs env db channelId rootId)).
Proof.
  intros Hdb Hclient db Happ Hfail command. subst command.
  destruct (executeCommand_backend_observed toLowerCase ResponseTypes env serverUrl intl
              message channelId rootId sdb client Hdb Hclient Happ) as (Hsent & _).
  split; [|split; [exact Hsent|]]; unfold result, trace;
    rewrite (executeCommand_backend_path _ _ _ _ intl _ _ _ _ _ Hdb Hclient Happ);
    fold db; rewrite Hfail; cbn [fst snd]; [reflexivity|apply last_snoc].
Qed.

Lemma backend_failure_witness :
  serverDatabases (Cases.backend (inl Cases.refused)) !! Sample.serverUrl
  = Some {| operator := {| database := Sample.db |} |}
  /\ result (executeCommand Js.toLowerCaseAscii Sample.types (Cases.backend (inl Cases.refused))
               Sample.serverUrl Sample.intl (Js.js "/poll") (Js.js "ch1") None)
     = Error (ErrorClient Cases.refused).
Proof.
  split; [vm_compute; reflexivity|].
  apply (backend_failure_is_returned Js.toLowerCaseAscii Sample.types
           (Cases.backend (inl Cases.refused))
           Sample.serverUrl Sample.intl (Js.js "/poll") (Js.js "ch1") None
           {| operator := {| database := Sample.db |} |} Sample.client Cases.refused);
    [vm_compute; reflexivity|reflexivity|reflexivity|reflexivity].
Defined.

(** X9. On the app path the parser composes the call from the message as it
    was typed: the em-dash filter, the lower-casing and the trimming of the
    backend path are not applied.  The parser was built for the same server,
    channel, team and root id as the command context. *)
Theorem app_path_passes_the_raw_message toLowerCase ResponseTypes env serverUrl intl
    message channelId rootId sdb client :
  serverDatabases env !! serverUrl = Some sdb ->
  getClient env serverUrl = inr client ->
  let db := database (operator sdb) in
  isAppPath env db serverUrl message channelId rootId = true ->
  exists rest,
    trace (executeCommand toLowerCase ResponseTypes env serverUrl intl
             message channelId rootId)
    = contextEvents env db serverUrl channelId
      ++ EvComposeCommandSubmitCall
           {| parserServerUrl := serverUrl; parserChannelId := channelId;
              parserTeamId := team_id (contextArgs env db channelId rootId);
              parserRootId := rootId |}
           message
         :: rest.
Proof.
  intros Hdb Hclient db Happ. subst db. unfold trace at 1.
  rewrite (executeCommand_app_path _ _ _ _ intl _ _ _ _ _ Hdb Hclient Happ). cbn [fst].
  destruct (executeAppCommand_starts ResponseTypes env serverUrl intl
              (contextParser env (database (operator sdb)) serverUrl channelId rootId) message
              (contextArgs env (database (operator sdb)) channelId rootId)) as (rest & ->).
  exists rest. reflexivity.
Qed.

Lemma app_path_witness :
  serverDatabases Sample.withApps !! Sample.serverUrl
  = Some {| operator := {| database := Sample.db |} |}
  /\ exists rest,
       trace (executeCommand Js.toLowerCaseAscii Sample.types Sample.withApps
                Sample.serverUrl Sample.intl Sample.dashed (Js.js "ch1") None)
       = contextEvents Sample.withApps Sample.db Sample.serverUrl (Js.js "ch1")
         ++ EvComposeCommandSubmitCall
              {| parserServerUrl := Sample.serverUrl; parserChannelId := Js.js "ch1";
                 parserTeamId :=
                   team_id (contextArgs Sample.withApps Sample.db (Js.js "ch1") None);
                 parserRootId := None |}
              Sample.dashed
            :: rest.
Proof.
  split; [vm_compute; reflexivity|].
  apply (app_path_passes_the_raw_message Js.toLowerCaseAscii Sample.types Sample.withApps
           Sample.serverUrl Sample.intl Sample.dashed (Js.js "ch1") None
           {| operator := {| database := Sample.db |} |} Sample.client);
    [vm_compute; reflexivity|reflexivity|reflexivity].
Defined.

(** ** Further properties: the entry points and the network client *)

(** X10. When [NetworkManager.getClient] throws, [executeCommand] (past its
    database check), [fetchCommands] and [fetchSuggestions] all return the
    thrown error itself, and none of them makes a request. *)
Theorem missing_client_stops_every_entry_point toLowerCase ResponseTypes env api serverUrl intl
    message channelId rootId term teamId error :
  getClient env serverUrl = inl error ->
  (forall sdb,
     serverDatabases env !! serverUrl = Some sdb ->
     run (executeCommand toLowerCase ResponseTypes env serverUrl intl message channelId rootId)
     = ([EvGetClient serverUrl], Error (ErrorClient error)))
  /\ fetchCommands env api serverUrl teamId = ([ReqGetClient serverUrl], CommandsError error)
  /\ fetchSuggestions env api serverUrl term teamId channelId rootId
     = ([ReqGetClient serverUrl], SuggestionsError error).
Proof.
  intros Hclient. split; [|split].
  - intros sdb Hdb. exact (executeCommand_no_client toLowerCase ResponseTypes env serverUrl intl
                             message channelId rootId sdb error Hdb Hclient).
  - unfold fetchCommands. rewrite Hclient. reflexivity.
  - unfold fetchSuggestions. rewrite Hclient. reflexivity.
Qed.

Lemma missing_client_witness :
  getClient (Cases.server true (inl Cases.thrown) false Cases.ready
               (inr Sample.bogusResponse) (inr None) true None [])
    Sample.serverUrl = inl Cases.thrown
  /\ fetchCommands (Cases.server true (inl Cases.thrown) false Cases.ready
                      (inr Sample.bogusResponse) (inr None) true None [])
       Cases.api Sample.serverUrl (Js.js "team1")
     = ([ReqGetClient Sample.serverUrl], CommandsError Cases.thrown).
Proof.
  split; [reflexivity|].
  apply (missing_client_stops_every_entry_point Js.toLowerCaseAscii Sample.types
           (Cases.server true (inl Cases.thrown) false Cases.ready
              (inr Sample.bogusResponse) (inr None) true None [])
           Cases.api Sample.serverUrl Sample.intl (Js.js "/away") (Js.js "ch1") None
           (Js.js "/aw") (Js.js "team1") Cases.thrown).
  reflexivity.
Defined.

(** X11. The listing operations do not need the database: for a server
    that has a client but no database handle, [executeCommand] fails before
    any request, while [fetchCommands] and [fetchSuggestions] make their one
    request, with the arguments as given, and return its outcome. *)
Theorem listing_needs_no_database toLowerCase ResponseTypes env api serverUrl intl
    message channelId rootId term teamId client :
  serverDatabases env !! serverUrl = None ->
  getClient env serverUrl = inr client ->
  trace (executeCommand toLowerCase ResponseTypes env serverUrl intl message channelId rootId)
  = []
  /\ fetchCommands env api serverUrl teamId
     = ([ReqGetClient serverUrl; ReqGetCommandsList client teamId],
        match getCommandsList api client teamId with
        | inl error => CommandsError error
        | inr commands => Commands commands
        end)
  /\ fetchSuggestions env api serverUrl term teamId channelId rootId
     = ([ReqGetClient serverUrl;
         ReqGetCommandAutocompleteSuggestionsList client term teamId channelId rootId],
        match getCommandAutocompleteSuggestionsList api client term teamId channelId rootId with
        | inl error => SuggestionsError error
        | inr suggestions => Suggestions suggestions
        end).
Proof.
  intros Hdb Hclient. split; [|split].
  - unfold trace.
    now rewrite (executeCommand_missing_database toLowerCase ResponseTypes env serverUrl intl
                   message channelId rootId Hdb).
  - unfold fetchCommands. rewrite Hclient. destruct (getCommandsList _ _ _); reflexivity.
  - unfold fetchSuggestions. rewrite Hclient.
    destruct (getCommandAutocompleteSuggestionsList _ _ _ _ _ _); reflexivity.
Qed.

Lemma listing_witness :
  serverDatabases (Cases.server false (inr Sample.client) false Cases.ready
                     (inr Sample.bogusResponse) (inr None) true None [])
    !! Sample.serverUrl = None
  /\ fetchCommands (Cases.server false (inr Sample.client) false Cases.ready
                      (inr Sample.bogusResponse) (inr None) true None [])
       Cases.api Sample.serverUrl (Js.js "team1")
     = ([ReqGetClient Sample.serverUrl; ReqGetCommandsList Sample.client (Js.js "team1")],
        match getCommandsList Cases.api Sample.client (Js.js "team1") with
        | inl error => CommandsError error
        | inr commands => Commands commands
        end).
Proof.
  split; [vm_compute; reflexivity|].
  apply (listing_needs_no_database Js.toLowerCaseAscii Sample.types
           (Cases.server false (inr Sample.client) false Cases.ready
              (inr Sample.bogusResponse) (inr None) true None [])
           Cases.api Sample.serverUrl Sample.intl (Js.js "/away") (Js.js "ch1") None
           (Js.js "/aw") (Js.js "team1") Sample.client);
    [vm_compute; reflexivity|reflexivity].
Defined.

(** ** Further properties: [executeAppCommand] *)

(** X12. Failures of the app pipeline have no side effect.  If the parser
    composes no call, its error message is returned and nothing is
    submitted; if the submission fails, the error is its text, or the
    "unknown error" message when the text is missing or empty, and nothing
    is posted, shown or opened. *)
Theorem app_failures_have_no_side_effect ResponseTypes env serverUrl intl parser msg args :
  let app := executeAppCommand ResponseTypes env serverUrl intl parser msg args in
  (creq (composeCommandSubmitCall env parser msg) = None ->
     run app
     = ([EvComposeCommandSubmitCall parser msg],
        Error (ErrorMessage (errorMessage (composeCommandSubmitCall env parser msg)))))
  /\ (forall c errorResponse,
        creq (composeCommandSubmitCall env parser msg) = Some c ->
        doAppSubmit env serverUrl c = inl errorResponse ->
        run app
        = ([EvComposeCommandSubmitCall parser msg; EvDoAppSubmit serverUrl c],
           Error (ErrorMessage (Some
             match text errorResponse with
             | Some (u :: t) => u :: t
             | _ => formatMessage intl
                      {| messageId := Js.js "apps.error.unknown";
                         defaultMessage := Js.js "Unknown error." |} []
             end)))).
Proof.
  split.
  - intros Hnone. unfold executeAppCommand. act_unfold. simpl. rewrite Hnone. reflexivity.
  - intros c errorResponse Hc Hfail. unfold executeAppCommand. act_unfold. simpl.
    rewrite Hc, Hfail. destruct (text errorResponse) as [[|u t]|]; reflexivity.
Qed.

(** X13. An OK response with a non-empty text makes exactly one ephemeral
    post, of that text, in the context of the command; without text, or with
    an empty one, it makes none.  Either way the result is [{data: {}}]. *)
Theorem ok_response_posts_its_text ResponseTypes env serverUrl intl parser msg args c callResp :
  creq (composeCommandSubmitCall env parser msg) = Some c ->
  doAppSubmit env serverUrl c = inr callResp ->
  type callResp = OK ResponseTypes ->
  run (executeAppCommand ResponseTypes env serverUrl intl parser msg args)
  = (EvComposeCommandSubmitCall parser msg :: EvDoAppSubmit serverUrl c
     :: match text callResp with
        | Some (u :: t) => [EvPostEphemeral serverUrl callResp (u :: t) args]
        | _ => []
        end,
     Data EmptyObject).
Proof.
  intros Hc Hres Hok. apply eqb_eq in Hok.
  unfold executeAppCommand. act_unfold. simpl. rewrite Hc, Hres, Hok.
  destruct (text callResp) as [[|u t]|]; reflexivity.
Qed.

Lemma ok_response_witness :
  creq (composeCommandSubmitCall
          (Cases.app Cases.ready
             (inr (Cases.response (Js.js "ok") (Some (Js.js "done")) None None)) None)
          (contextParser Sample.withApps Sample.db Sample.serverUrl (Js.js "ch1") None)
          (Js.js "/jira issue"))
  = Some Sample.submitCall
  /\ ephemeralPosts
       (run (executeAppCommand Sample.types
               (Cases.app Cases.ready
                  (inr (Cases.response (Js.js "ok") (Some (Js.js "done")) None None)) None)
               Sample.serverUrl Sample.intl
               (contextParser Sample.withApps Sample.db Sample.serverUrl (Js.js "ch1") None)
               (Js.js "/jira issue")
               (contextArgs Sample.withApps Sample.db (Js.js "ch1") None))).1
     = [(Js.js "done", contextArgs Sample.withApps Sample.db (Js.js "ch1") None)].
Proof.
  split; [reflexivity|].
  rewrite (ok_response_posts_its_text Sample.types
             (Cases.app Cases.ready
                (inr (Cases.response (Js.js "ok") (Some (Js.js "done")) None None)) None)
             Sample.serverUrl Sample.intl
             (contextParser Sample.withApps Sample.db Sample.serverUrl (Js.js "ch1") None)
             (Js.js "/jira issue")
             (contextArgs Sample.withApps Sample.db (Js.js "ch1") None)
             Sample.submitCall
             (Cases.response (Js.js "ok") (Some (Js.js "done")) None None)
             eq_refl eq_refl eq_refl).
  reflexivity.
Defined.

(** X14. A FORM response shows its form, with the context of the call that
    was submitted, when it carries one, and shows nothing otherwise; the
    result is [{data: {}}]. *)
Theorem form_response_shows_its_form ResponseTypes env serverUrl intl parser msg args
    c callResp :
  creq (composeCommandSubmitCall env parser msg) = Some c ->
  doAppSubmit env serverUrl c = inr callResp ->
  type callResp <> OK ResponseTypes ->
  type callResp = FORM ResponseTypes ->
  run (executeAppCommand ResponseTypes env serverUrl intl parser msg args)
  = (EvComposeCommandSubmitCall parser msg :: EvDoAppSubmit serverUrl c
     :: match form callResp with
        | Some f => [EvShowAppForm f (creqContext c)]
        | None => []
        end,
     Data EmptyObject).
Proof.
  intros Hc Hres Hok Hform. apply eqb_neq in Hok. apply eqb_eq in Hform.
  unfold executeAppCommand. act_unfold. simpl. rewrite Hc, Hres, Hok, Hform.
  destruct (form callResp); reflexivity.
Qed.

Lemma form_response_witness :
  doAppSubmit
    (Cases.app Cases.ready
       (inr (Cases.response (Js.js "form") None (Some {| formTitle := Js.js "New" |}) None))
       None)
    Sample.serverUrl Sample.submitCall
  = inr (Cases.response (Js.js "form") None (Some {| formTitle := Js.js "New" |}) None)
  /\ run (executeAppCommand Sample.types
            (Cases.app Cases.ready
               (inr (Cases.response (Js.js "form") None (Some {| formTitle := Js.js "New" |})
                       None))
               None)
            Sample.serverUrl Sample.intl
            (contextParser Sample.withApps Sample.db Sample.serverUrl (Js.js "ch1") None)
            (Js.js "/jira issue")
            (contextArgs Sample.withApps Sample.db (Js.js "ch1") None))
     = ([EvComposeCommandSubmitCall
           (contextParser Sample.withApps Sample.db Sample.serverUrl (Js.js "ch1") None)
           (Js.js "/jira issue");
         EvDoAppSubmit Sample.serverUrl Sample.submitCall;
         EvShowAppForm {| formTitle := Js.js "New" |} (creqContext Sample.submitCall)],
        Data EmptyObject).
Proof.
  split; [reflexivity|].
  apply (form_response_shows_its_form Sample.types
           (Cases.app Cases.ready
              (inr (Cases.response (Js.js "form") None (Some {| formTitle := Js.js "New" |})
                      None))
              None)
           Sample.serverUrl Sample.intl
           (contextParser Sample.withApps Sample.db Sample.serverUrl (Js.js "ch1") None)
           (Js.js "/jira issue")
           (contextArgs Sample.withApps Sample.db (Js.js "ch1") None)
           Sample.submitCall
           (Cases.response (Js.js "form") None (Some {| formTitle := Js.js "New" |}) None));
    try reflexivity.
  vm_compute. discriminate.
Defined.

(** X15. A NAVIGATE response with a URL starts the deep-link resolution of
    that URL for the same server and does not wait for it: whatever
    [handleGotoLocation] returns, also [{data: false}] or [{error}], the
    command returns [{data: {}}]. *)
Theorem navigate_response_ignores_the_outcome ResponseTypes env serverUrl intl parser msg args
    c callResp :
  creq (composeCommandSubmitCall env parser msg) = Some c ->
  doAppSubmit env serverUrl c = inr callResp ->
  type callResp <> OK ResponseTypes ->
  type callResp <> FORM ResponseTypes ->
  type callResp = NAVIGATE ResponseTypes ->
  run (executeAppCommand ResponseTypes env serverUrl intl parser msg args)
  = (EvComposeCommandSubmitCall parser msg :: EvDoAppSubmit serverUrl c
     :: match navigate_to_url callResp with
        | Some (u :: url) => trace (handleGotoLocation env serverUrl intl (u :: url))
        | _ => []
        end,
     Data EmptyObject).
Proof.
  intros Hc Hres Hok Hform Hnavigate.
  apply eqb_neq in Hok, Hform. apply eqb_eq in Hnavigate.
  unfold executeAppCommand. act_unfold. simpl. rewrite Hc, Hres, Hok, Hform, Hnavigate.
  destruct (navigate_to_url callResp) as [[|u url]|]; try reflexivity.
  simpl. rewrite app_nil_r. reflexivity.
Qed.

Lemma navigate_response_witness :
  result (handleGotoLocation
            (Cases.app Cases.ready
               (inr (Cases.response (Js.js "navigate") None None (Some Sample.location)))
               (Some (Sample.link GroupMessage None None)))
            Sample.serverUrl Sample.intl Sample.location)
  = Data false
  /\ result (executeAppCommand Sample.types
               (Cases.app Cases.ready
                  (inr (Cases.response (Js.js "navigate") None None (Some Sample.location)))
                  (Some (Sample.link GroupMessage None None)))
               Sample.serverUrl Sample.intl
               (contextParser Sample.withApps Sample.db Sample.serverUrl (Js.js "ch1") None)
               (Js.js "/jira issue")
               (contextArgs Sample.withApps Sample.db (Js.js "ch1") None))
     = Data EmptyObject.
Proof.
  split; [vm_compute; reflexivity|]. unfold result at 1.
  rewrite (navigate_response_ignores_the_outcome Sample.types
             (Cases.app Cases.ready
                (inr (Cases.response (Js.js "navigate") None None (Some Sample.location)))
                (Some (Sample.link GroupMessage None None)))
             Sample.serverUrl Sample.intl
             (contextParser Sample.withApps Sample.db Sample.serverUrl (Js.js "ch1") None)
             (Js.js "/jira issue")
             (contextArgs Sample.withApps Sample.db (Js.js "ch1") None)
             Sample.submitCall
             (Cases.response (Js.js "navigate") None None (Some Sample.location))
             eq_refl eq_refl);
    [reflexivity| | |reflexivity]; vm_compute; discriminate.
Defined.

Lemma app_failure_witness :
  creq (composeCommandSubmitCall
          (Cases.app {| creq := None; errorMessage := Some (Js.js "unknown command") |}
             (inr Sample.bogusResponse) None)
          (contextParser Sample.withApps Sample.db Sample.serverUrl (Js.js "ch1") None)
          (Js.js "/jira"))
  = None
  /\ run (executeAppCommand Sample.types
            (Cases.app {| creq := None; errorMessage := Some (Js.js "unknown command") |}
               (inr Sample.bogusResponse) None)
            Sample.serverUrl Sample.intl
            (contextParser Sample.withApps Sample.db Sample.serverUrl (Js.js "ch1") None)
            (Js.js "/jira")
            (contextArgs Sample.withApps Sample.db (Js.js "ch1") None))
     = ([EvComposeCommandSubmitCall
           (contextParser Sample.withApps Sample.db Sample.serverUrl (Js.js "ch1") None)
           (Js.js "/jira")],
        Error (ErrorMessage (Some (Js.js "unknown command")))).
Proof.
  split; [reflexivity|].
  apply (proj1 (app_failures_have_no_side_effect Sample.types
                  (Cases.app {| creq := None; errorMessage := Some (Js.js "unknown command") |}
                     (inr Sample.bogusResponse) None)
                  Sample.serverUrl Sample.intl
                  (contextParser Sample.withApps Sample.db Sample.serverUrl (Js.js "ch1") None)
                  (Js.js "/jira")
                  (contextArgs Sample.withApps Sample.db (Js.js "ch1") None))).
  reflexivity.
Defined.

(** ** Further properties: [handleGotoLocation] *)

Lemma handleGotoLocation_fallback_trace env serverUrl intl location sdb :
  serverDatabases env !! serverUrl = Some sdb ->
  let db := database (operator sdb) in
  matchedLink env db serverUrl location = None
  \/ truthy (linkServerUrl env (matchedLink env db serverUrl location)) = false ->
  exists alerts,
    run (handleGotoLocation env serverUrl intl location)
    = (EvGetConfig db :: EvTryOpenURL location :: alerts, Data true)
    /\ openedURLs alerts = [] /\ navigations alerts = []
    /\ List.filter isLinkError alerts = [].
Proof.
  intros Hdb db Hno. subst db.
  unfold handleGotoLocation. rewrite Hdb. simpl.
  fold (matchedLink env (database (operator sdb)) serverUrl location).
  assert (forall ok : bool, exists alerts : list Event,
    (if ok then ([] : list Event) else
       [EvAlert
          (formatMessage intl
             {| messageId := Js.js "mobile.server_link.error.title";
                defaultMessage := Js.js "Link Error" |} [])
          (formatMessage intl
             {| messageId := Js.js "mobile.server_link.error.text";
                defaultMessage := Js.js "The link could not be found on this server." |} [])])
    = alerts /\ openedURLs alerts = [] /\ navigations alerts = []
      /\ List.filter isLinkError alerts = []) as Halerts.
  { intros [|]; eexists; repeat split. }
  destruct (Halerts (canOpenURL env location)) as (alerts & Halert & Hrest).
  exists alerts. split; [|exact Hrest].
  destruct (matchedLink env _ serverUrl location) as [m|] eqn:Hm.
  - destruct Hno as [Hno|Hno]; [discriminate|].
    unfold ifTruthy at 1.
    destruct (linkServerUrl env (Some m)) as [link|]; simpl in Hno.
    + change (truthy link = false) in Hno. rewrite Hno. act_steps. simpl.
      rewrite <- Halert. destruct (canOpenURL env location); reflexivity.
    + act_steps. simpl.
      rewrite <- Halert. destruct (canOpenURL env location); reflexivity.
  - act_steps. simpl.
    rewrite <- Halert. destruct (canOpenURL env location); reflexivity.
Qed.

(** X16. With the database present every invocation ends in one of three
    ways: one navigation dispatched and [{data: true}]; the link handed to
    the external opener, once, and [{data: true}]; or an "unknown user" or
    "bad channel" alert and [{data: false}].  It never both navigates and
    opens the link, and [{data: false}] always comes with its alert. *)
Theorem goto_ends_in_one_of_three_ways env serverUrl intl location sdb :
  serverDatabases env !! serverUrl = Some sdb ->
  let goto := handleGotoLocation env serverUrl intl location in
  (result goto = Data true
   /\ List.filter isLinkError (trace goto) = []
   /\ ((exists action, navigations (trace goto) = [action]) /\ openedURLs (trace goto) = []
       \/ navigations (trace goto) = [] /\ openedURLs (trace goto) = [location]))
  \/ (result goto = Data false
      /\ navigations (trace goto) = [] /\ openedURLs (trace goto) = []
      /\ List.length (List.filter isLinkError (trace goto)) = 1%nat).
Proof.
  intros Hdb goto. subst goto.
  assert (matchedLink env (database (operator sdb)) serverUrl location = None
          \/ truthy (linkServerUrl env
                       (matchedLink env (database (operator sdb)) serverUrl location)) = false
          -> result (handleGotoLocation env serverUrl intl location) = Data true
             /\ List.filter isLinkError (trace (handleGotoLocation env serverUrl intl location))
                = []
             /\ navigations (trace (handleGotoLocation env serverUrl intl location)) = []
             /\ openedURLs (trace (handleGotoLocation env serverUrl intl location))
                = [location]) as Hfallback.
  { intros Hno.
    destruct (handleGotoLocation_fallback_trace env serverUrl intl location sdb Hdb Hno)
      as (alerts & Hrun & Hopen & Hnav & Herr).
    unfold trace, result. rewrite Hrun. simpl.
    unfold openedURLs, navigations in *. rewrite Hopen, Hnav, Herr. auto. }
  destruct (matchedLink env (database (operator sdb)) serverUrl location) as [m|] eqn:Hm;
    [|left; destruct Hfallback as (? & ? & ? & ?); auto].
  destruct (linkServerUrl env (Some m)) as [link|] eqn:Hlink;
    [|left; destruct Hfallback as (? & ? & ? & ?); auto].
  destruct (truthy link) eqn:Htruthy;
    [|left; destruct Hfallback as (? & ? & ? & ?); auto].
  unfold trace, result.
  rewrite (handleGotoLocation_matched env serverUrl intl location sdb m link
             Hdb Hm Hlink Htruthy).
  unfold dispatched.
  repeat case_match; simpl; first [left; repeat split; left; eauto | right; repeat split].
Qed.

Lemma goto_three_ways_witness :
  serverDatabases (Sample.linked (Sample.link GroupMessage None None) true []) !! Sample.serverUrl
  = Some {| operator := {| database := Sample.db |} |}
  /\ ((result (handleGotoLocation (Sample.linked (Sample.link GroupMessage None None) true [])
                 Sample.serverUrl Sample.intl Sample.location) = Data true
       /\ List.filter isLinkError
            (trace (handleGotoLocation (Sample.linked (Sample.link GroupMessage None None) true [])
                      Sample.serverUrl Sample.intl Sample.location)) = []
       /\ ((exists action,
              navigations
                (trace (handleGotoLocation
                          (Sample.linked (Sample.link GroupMessage None None) true [])
                          Sample.serverUrl Sample.intl Sample.location)) = [action])
           /\ openedURLs
                (trace (handleGotoLocation
                          (Sample.linked (Sample.link GroupMessage None None) true [])
                          Sample.serverUrl Sample.intl Sample.location)) = []
           \/ navigations
                (trace (handleGotoLocation
                          (Sample.linked (Sample.link GroupMessage None None) true [])
                          Sample.serverUrl Sample.intl Sample.location)) = []
              /\ openedURLs
                   (trace (handleGotoLocation
                             (Sample.linked (Sample.link GroupMessage None None) true [])
                             Sample.serverUrl Sample.intl Sample.location))
                 = [Sample.location]))
      \/ (result (handleGotoLocation (Sample.linked (Sample.link GroupMessage None None) true [])
                    Sample.serverUrl Sample.intl Sample.location) = Data false
          /\ navigations
               (trace (handleGotoLocation
                         (Sample.linked (Sample.link GroupMessage None None) true [])
                         Sample.serverUrl Sample.intl Sample.location)) = []
          /\ openedURLs
               (trace (handleGotoLocation
                         (Sample.linked (Sample.link GroupMessage None None) true [])
                         Sample.serverUrl Sample.intl Sample.location)) = []
          /\ List.length
               (List.filter isLinkError
                  (trace (handleGotoLocation
                            (Sample.linked (Sample.link GroupMessage None None) true [])
                            Sample.serverUrl Sample.intl Sample.location))) = 1%nat)).
Proof.
  split; [vm_compute; reflexivity|].
  apply (goto_ends_in_one_of_three_ways
           (Sample.linked (Sample.link GroupMessage None None) true [])
           Sample.serverUrl Sample.intl Sample.location
           {| operator := {| database := Sample.db |} |}).
  vm_compute. reflexivity.
Defined.

(** X17. A navigation that names a server names the server the matched
    link resolved to, not the server [handleGotoLocation] was called for. *)
Theorem navigation_goes_to_the_link_server env serverUrl intl location sdb :
  serverDatabases env !! serverUrl = Some sdb ->
  let db := database (operator sdb) in
  Forall (fun action =>
            forall target, navigationServer action = Some target ->
                           linkServerUrl env (matchedLink env db serverUrl location) = Some target)
    (navigations (trace (handleGotoLocation env serverUrl intl location))).
Proof.
  intros Hdb db. subst db.
  assert (matchedLink env (database (operator sdb)) serverUrl location = None
          \/ truthy (linkServerUrl env
                       (matchedLink env (database (operator sdb)) serverUrl location)) = false
          -> navigations (trace (handleGotoLocation env serverUrl intl location)) = [])
    as Hfallback.
  { intros Hno.
    destruct (handleGotoLocation_fallback env serverUrl intl location sdb Hdb Hno)
      as (alerts & Hrun & _ & Hnav & _).
    unfold trace. rewrite Hrun. simpl. exact Hnav. }
  destruct (matchedLink env (database (operator sdb)) serverUrl location) as [m|] eqn:Hm;
    [|rewrite Hfallback by auto; constructor].
  destruct (linkServerUrl env (Some m)) as [link|] eqn:Hlink;
    [|rewrite Hfallback by auto; constructor].
  destruct (truthy link) eqn:Htruthy; [|rewrite Hfallback by auto; constructor].
  unfold trace.
  rewrite (handleGotoLocation_matched env serverUrl intl location sdb m link
             Hdb Hm Hlink Htruthy).
  unfold dispatched.
  repeat case_match; simpl; repeat constructor; simpl; congruence.
Qed.

Lemma navigation_server_witness :
  serverDatabases (Sample.linked (Sample.link Channel None None) true []) !! Sample.serverUrl
  = Some {| operator := {| database := Sample.db |} |}
  /\ Forall (fun action =>
               forall target,
                 navigationServer action = Some target ->
                 linkServerUrl (Sample.linked (Sample.link Channel None None) true [])
                   (matchedLink (Sample.linked (Sample.link Channel None None) true [])
                      Sample.db Sample.serverUrl Sample.location)
                 = Some target)
       (navigations
          (trace (handleGotoLocation (Sample.linked (Sample.link Channel None None) true [])
                    Sample.serverUrl Sample.intl Sample.location))).
Proof.
  split; [vm_compute; reflexivity|].
  apply (navigation_goes_to_the_link_server
           (Sample.linked (Sample.link Channel None None) true [])
           Sample.serverUrl Sample.intl Sample.location
           {| operator := {| database := Sample.db |} |}).
  vm_compute. reflexivity.
Defined.

Example channel_link_goes_to_other_server :
  navigations
    (trace (handleGotoLocation (Sample.linked (Sample.link Channel None None) true [])
              Sample.serverUrl Sample.intl Sample.location))
  = [SwitchToChannelByName (Js.js "https://b.example") (Some (Js.js "town-square"))
       (Some (Js.js "team"))].
Proof. vm_compute. reflexivity. Qed.

(** X18. A DirectMessage link whose user name matches several users opens
    the conversation with the first one returned, on the link's server, asks
    to switch to it, and names it by [displayUsername] under the teammate
    name display setting of the calling server's database. *)
Theorem direct_message_opens_first_user env serverUrl intl location sdb m d link
    userName user others :
  serverDatabases env !! serverUrl = Some sdb ->
  let db := database (operator sdb) in
  matchedLink env db serverUrl location = Some m ->
  data m = Some d ->
  linkServerUrl env (Some m) = Some link ->
  truthy link = true ->
  linkType m = DirectMessage ->
  DeepLink.userName d = Some userName ->
  truthy userName = true ->
  queryUsersByUsername env db [userName] = user :: others ->
  navigations (trace (handleGotoLocation env serverUrl intl location))
  = [MakeDirectChannel link (UserModel.id user)
       (displayUsername env user (locale intl) (getTeammateNameDisplay env db)) true]
  /\ result (handleGotoLocation env serverUrl intl location) = Data true.
Proof.
  intros Hdb db Hm Hd Hlink Htruthy Hkind Hname Hnonempty Husers.
  unfold trace, result.
  rewrite (handleGotoLocation_matched env serverUrl intl location sdb m link
             Hdb Hm Hlink Htruthy).
  rewrite Hd, Hkind. change (default DeepLink.empty (Some d)) with d. fold db.
  unfold dispatched. rewrite Hname.
  destruct userName as [|u name]; [discriminate|]. rewrite Husers. split; reflexivity.
Qed.

Lemma direct_message_witness :
  serverDatabases
    (Sample.linked (Sample.link DirectMessage (Some (Js.js "al")) None) true
       [Sample.alice; {| UserModel.id := Js.js "u2"; UserModel.username := Js.js "alan" |}])
    !! Sample.serverUrl
  = Some {| operator := {| database := Sample.db |} |}
  /\ navigations
       (trace (handleGotoLocation
                 (Sample.linked (Sample.link DirectMessage (Some (Js.js "al")) None) true
                    [Sample.alice;
                     {| UserModel.id := Js.js "u2"; UserModel.username := Js.js "alan" |}])
                 Sample.serverUrl Sample.intl Sample.location))
     = [MakeDirectChannel (Js.js "https://b.example") (Js.js "u1") (Js.js "alice") true].
Proof.
  split; [vm_compute; reflexivity|].
  apply (proj1 (direct_message_opens_first_user
                  (Sample.linked (Sample.link DirectMessage (Some (Js.js "al")) None) true
                     [Sample.alice;
                      {| UserModel.id := Js.js "u2"; UserModel.username := Js.js "alan" |}])
                  Sample.serverUrl Sample.intl Sample.location
                  {| operator := {| database := Sample.db |} |}
                  (Sample.link DirectMessage (Some (Js.js "al")) None)
                  {| DeepLink.serverUrl := Some (Js.js "https://b.example");
                     DeepLink.teamName := Some (Js.js "team");
                     DeepLink.channelName := Some (Js.js "town-square");
                     DeepLink.postId := None;
                     DeepLink.userName := Some (Js.js "al");
                     DeepLink.channelId := None;
                     DeepLink.id := None |}
                  (Js.js "https://b.example") (Js.js "al") Sample.alice
                  [{| UserModel.id := Js.js "u2"; UserModel.username := Js.js "alan" |}]
                  ltac:(vm_compute; reflexivity) eq_refl eq_refl eq_refl eq_refl eq_refl
                  eq_refl eq_refl eq_refl)).
Defined.
